(** * ai-infra-monitor: the log-analysis Lambda, embedded and verified

    A shallow embedding of [lambda_function.py]: the keyword classifier and
    the threshold table of [analyze_logs_simple], the metric points of
    [store_metrics], the envelope of [create_response], the guarded fetch
    loop of [fetch_recent_logs] and the top-level [lambda_handler].

    Python [int] is [Z].  Python [str] is [string], read as a sequence of
    code points below 256.  Dictionaries with a fixed set of keys are
    records; dictionaries used as lookup tables are [gmap]s.  The external
    log store, metrics store and clock are oracles gathered in a [World];
    every call made to them and every [print] is recorded in a trace. *)

From Stdlib Require Import ZArith String Ascii List DecimalString Lia Bool.
From Stdlib Require DecimalZ.
From stdpp Require Import gmap strings list fin_maps.

Open Scope string_scope.
Open Scope list_scope.
Open Scope Z_scope.

(** ** Python strings *)

Module PyStr.

(** [str.lower] on one code point below 256: [A-Z] and the upper-case
    letters of Latin-1 ([U+00C0]-[U+00DE], the sign [U+00D7] apart) move
    up by 32, everything else is unchanged. *)
Definition lower_char (c : ascii) : ascii :=
  let n := nat_of_ascii c in
  if ((65 <=? n)%nat && (n <=? 90)%nat)
     || ((192 <=? n)%nat && (n <=? 222)%nat && negb (n =? 215)%nat)
  then ascii_of_nat (n + 32)
  else c.

(** [s.lower()] *)
Fixpoint lower (s : string) : string :=
  match s with
  | EmptyString => EmptyString
  | String c s' => String (lower_char c) (lower s')
  end.

(** [s.startswith(p)], the building block of the substring test. *)
Fixpoint starts_with (p s : string) : bool :=
  match p, s with
  | EmptyString, _ => true
  | String _ _, EmptyString => false
  | String a p', String b s' => if ascii_dec a b then starts_with p' s' else false
  end.

(** [w in m] for two strings: [w] occurs in [m] at some offset. *)
Fixpoint str_in (w m : string) : bool :=
  starts_with w m ||
  match m with
  | EmptyString => false
  | String _ m' => str_in w m'
  end.

(** [f"{n}"] for an [int]: the decimal numeral, with a sign when negative. *)
Definition fmt_int (n : Z) : string := NilZero.string_of_int (Z.to_int n).

(** [len(l)] *)
Definition len {A} (l : list A) : Z := Z.of_nat (length l).

End PyStr.
Import PyStr.

(** ** Values met at run time *)

(** A value found under a key of a log event.  The log store is expected to
    hand back a string for [message] and an integer for [timestamp]; nothing
    in the code checks it. *)
Inductive pyval : Type :=
| PyStr (s : string)
| PyInt (n : Z)
| PyNone.

(** An exception, with its class name and [str(e)]. *)
Record Exception : Type := mkExc { exc_class : string; exc_str : string }.

Inductive result (A : Type) : Type :=
| Ok (a : A)
| Raise (e : Exception).
Arguments Ok {A} a.
Arguments Raise {A} e.

(** The name Python uses for the type of a value in an [AttributeError]. *)
Definition type_name (v : pyval) : string :=
  match v with
  | PyStr _ => "str"
  | PyInt _ => "int"
  | PyNone => "NoneType"
  end.

(** [v.lower()]: defined on strings, [AttributeError] on anything else. *)
Definition py_lower (v : pyval) : result string :=
  match v with
  | PyStr s => Ok (lower s)
  | _ => Raise (mkExc "AttributeError"
                  ("'" +:+ type_name v +:+ "' object has no attribute 'lower'"))
  end.

(** ** Data model *)

(** The dictionary appended to [all_logs] by [fetch_recent_logs]. *)
Record LogEntry : Type := mkLogEntry {
  timestamp : pyval;
  message : pyval;
  log_group : string
}.

(** The dictionary returned by [analyze_logs_simple]. *)
Record AnalysisResult : Type := mkAnalysis {
  severity : string;
  issues_found : list string;
  recommendations : list string;
  summary : string
}.

(** ** analyze_logs_simple *)

Definition error_words : list string := ["error"; "exception"; "failed"; "critical"].
Definition warning_words : list string := ["warning"; "warn"; "deprecated"].

(** [any(word in message for word in words)] *)
Definition any_word_in (words : list string) (msg : string) : bool :=
  existsb (fun word => str_in word msg) words.

(** The two counters of the scan. *)
Record Counters : Type := mkCounters { error_count : Z; warning_count : Z }.

(** One iteration of the [for log in log_data] loop. *)
Definition classify_entry (c : Counters) (log : LogEntry) : result Counters :=
  match py_lower (message log) with
  | Raise e => Raise e
  | Ok msg =>
      if any_word_in error_words msg then
        Ok (mkCounters (error_count c + 1) (warning_count c))
      else if any_word_in warning_words msg then
        Ok (mkCounters (error_count c) (warning_count c + 1))
      else Ok c
  end.

(** The whole loop, from the counters [c]; it stops at the first exception. *)
Fixpoint classify_loop (c : Counters) (log_data : list LogEntry) : result Counters :=
  match log_data with
  | [] => Ok c
  | log :: rest =>
      match classify_entry c log with
      | Raise e => Raise e
      | Ok c' => classify_loop c' rest
      end
  end.

(** The [if / elif / elif / else] chain: severity and the issues appended. *)
Definition determine_severity (c : Counters) : string * list string :=
  if 5 <? error_count c then
    ("high", ["High error count detected: " +:+ fmt_int (error_count c) +:+ " errors"])
  else if 2 <? error_count c then
    ("medium", ["Moderate error count: " +:+ fmt_int (error_count c) +:+ " errors"])
  else if 10 <? warning_count c then
    ("medium", ["Many warnings detected: " +:+ fmt_int (warning_count c) +:+ " warnings"])
  else ("low", []).

(** The three [if]s that fill [recommendations]. *)
Definition build_recommendations (c : Counters) : list string :=
  let r0 : list string := [] in
  let r1 := if 0 <? error_count c
            then r0 ++ ["Review error logs for root cause analysis"] else r0 in
  let r2 := if 5 <? warning_count c
            then r1 ++ ["Address warning conditions to prevent issues"] else r1 in
  match r2 with
  | [] => r2 ++ ["Continue monitoring - system appears stable"]
  | _ :: _ => r2
  end.

Definition analyze_logs_simple (log_data : list LogEntry) : result AnalysisResult :=
  match classify_loop (mkCounters 0 0) log_data with
  | Raise e => Raise e
  | Ok c =>
      let '(sev, issues) := determine_severity c in
      Ok {| severity := sev;
            issues_found := issues;
            recommendations := build_recommendations c;
            summary := "Analyzed " +:+ fmt_int (len log_data) +:+ " logs: "
                       +:+ fmt_int (error_count c) +:+ " errors, "
                       +:+ fmt_int (warning_count c) +:+ " warnings" |}
  end.

(** ** json.dumps *)

(** The values the handler serialises: strings, integers, lists, and
    dictionaries in insertion order. *)
#[warnings="-register-all"]
Inductive json : Type :=
| JStr (s : string)
| JInt (n : Z)
| JList (items : list json)
| JDict (fields : list (string * json)).

Module Json.

Definition quote : string := String (ascii_of_nat 34) EmptyString.
Definition backslash : string := String (ascii_of_nat 92) EmptyString.

Definition hex_digit (n : nat) : ascii :=
  match String.get n "0123456789abcdef" with
  | Some c => c
  | None => "0"%char
  end.

(** One code point under [ensure_ascii=True]: the two-character escapes
    first, printable ASCII as it is, anything else as [\u00xx]. *)
Definition escape_char (c : ascii) : string :=
  let n := nat_of_ascii c in
  if (n =? 34)%nat then backslash +:+ quote
  else if (n =? 92)%nat then backslash +:+ backslash
  else if (n =? 8)%nat then backslash +:+ "b"
  else if (n =? 12)%nat then backslash +:+ "f"
  else if (n =? 10)%nat then backslash +:+ "n"
  else if (n =? 13)%nat then backslash +:+ "r"
  else if (n =? 9)%nat then backslash +:+ "t"
  else if (32 <=? n)%nat && (n <=? 126)%nat then String c EmptyString
  else backslash +:+ "u00"
       +:+ String (hex_digit (n / 16)) (String (hex_digit (n mod 16)) EmptyString).

Fixpoint escape (s : string) : string :=
  match s with
  | EmptyString => EmptyString
  | String c s' => escape_char c +:+ escape s'
  end.

Definition dumps_str (s : string) : string := quote +:+ escape s +:+ quote.

(** [json.dumps] with its default separators [", "] and [": "]. *)
Fixpoint dumps (j : json) : string :=
  match j with
  | JStr s => dumps_str s
  | JInt n => fmt_int n
  | JList items =>
      "[" +:+
      (fix go (l : list json) : string :=
         match l with
         | [] => EmptyString
         | x :: rest =>
             match rest with
             | [] => dumps x
             | _ :: _ => dumps x +:+ ", " +:+ go rest
             end
         end) items
      +:+ "]"
  | JDict fields =>
      "{" +:+
      (fix go (l : list (string * json)) : string :=
         match l with
         | [] => EmptyString
         | (k, v) :: rest =>
             match rest with
             | [] => dumps_str k +:+ ": " +:+ dumps v
             | _ :: _ => dumps_str k +:+ ": " +:+ dumps v +:+ ", " +:+ go rest
             end
         end) fields
      +:+ "}"
  end.

End Json.

(** The analysis dictionary as [json.dumps] sees it. *)
Definition analysis_json (a : AnalysisResult) : json :=
  JDict [("severity", JStr (severity a));
         ("issues_found", JList (map JStr (issues_found a)));
         ("recommendations", JList (map JStr (recommendations a)));
         ("summary", JStr (summary a))].

(** ** create_response *)

(** The two shapes of [body] the handler passes: a [str] or a [dict]. *)
Inductive Body : Type :=
| BodyStr (s : string)
| BodyDict (fields : list (string * json)).

Record Response : Type := mkResponse {
  statusCode : Z;
  headers : gmap string string;
  body : string
}.

Definition create_response (status_code : Z) (b : Body) : Response :=
  {| statusCode := status_code;
     headers := {[ "Content-Type" := "application/json";
                   "Access-Control-Allow-Origin" := "*" ]};
     body := match b with
             | BodyDict fields => Json.dumps (JDict fields)
             | BodyStr s => s
             end |}.

(** ** The outside world *)

Record MetricPoint : Type := mkMetric {
  MetricName : string;
  Value : Z;
  Unit : string
}.

(** What [filter_log_events] hands back: a dictionary that may or may not
    have an ['events'] key, each event a dictionary of its own. *)
Record FilterResponse : Type := mkFilterResponse {
  events : option (list (gmap string pyval))
}.

(** The collaborators of one invocation.  [clock_ms] is the wall clock at
    the start of the fetch, in epoch milliseconds. *)
Record World : Type := mkWorld {
  clock_ms : Z;
  filter_log_events : string -> Z -> Z -> Z -> result FilterResponse;
  put_metric_data : string -> list MetricPoint -> result ()
}.

(** What an invocation does that can be seen from outside. *)
Inductive Event : Type :=
| EvPrint (line : string)
| EvFilterLogEvents (logGroupName : string) (startTime endTime limit : Z)
| EvPutMetricData (Namespace : string) (MetricData : list MetricPoint).

(** ** Computations: read the world, log events, return or raise *)

Definition M (A : Type) : Type := World -> result A * list Event.

Module Run.

Definition ret {A} (a : A) : M A := fun _ => (Ok a, []).

Definition bind {A B} (m : M A) (f : A -> M B) : M B :=
  fun w =>
    match m w with
    | (Ok a, t) => let '(r, t') := f a w in (r, t ++ t')
    | (Raise e, t) => (Raise e, t)
    end.

(** [try: m  except Exception as e: h e] *)
Definition try_catch {A} (m : M A) (h : Exception -> M A) : M A :=
  fun w =>
    match m w with
    | (Ok a, t) => (Ok a, t)
    | (Raise e, t) => let '(r, t') := h e w in (r, t ++ t')
    end.

Definition lift {A} (r : result A) : M A := fun _ => (r, []).

Definition print (line : string) : M () := fun _ => (Ok (), [EvPrint line]).

Definition now_ms : M Z := fun w => (Ok (clock_ms w), []).

Definition call_filter_log_events (g : string) (s e l : Z) : M FilterResponse :=
  fun w => (filter_log_events w g s e l, [EvFilterLogEvents g s e l]).

Definition call_put_metric_data (ns : string) (d : list MetricPoint) : M () :=
  fun w => (put_metric_data w ns d, [EvPutMetricData ns d]).

End Run.
Import Run.

#[global] Instance M_ret : MRet M := @ret.
#[global] Instance M_bind : MBind M := fun A B f m => bind m f.

(** ** store_metrics *)

Definition severity_map : gmap string Z :=
  {[ "low" := 1; "medium" := 2; "high" := 3; "critical" := 4 ]}.

(** [severity_map.get(analysis.get('severity', 'low'), 1)] *)
Definition severity_value (analysis : AnalysisResult) : Z :=
  default 1 (severity_map !! severity analysis).

(** [len(analysis.get('issues_found', []))] *)
Definition issues_count (analysis : AnalysisResult) : Z :=
  len (issues_found analysis).

(** The [MetricData] argument of the one [put_metric_data] call. *)
Definition metric_data (analysis : AnalysisResult) : list MetricPoint :=
  [ mkMetric "SeverityLevel" (severity_value analysis) "None";
    mkMetric "IssuesFound" (issues_count analysis) "Count" ].

Definition store_metrics (analysis : AnalysisResult) : M () :=
  try_catch
    (call_put_metric_data "Infrastructure/AI-Monitor" (metric_data analysis);;
     print ("Metrics stored: Severity=" +:+ fmt_int (severity_value analysis)
            +:+ ", Issues=" +:+ fmt_int (issues_count analysis)))
    (fun e => print ("Failed to store metrics: " +:+ exc_str e)).

(** ** fetch_recent_logs *)

Definition log_groups : list string := ["/aws/lambda/ai-infra-monitor"].

(** [d[key]]: the value, or [KeyError] whose text is the quoted key. *)
Definition getitem (d : gmap string pyval) (key : string) : result pyval :=
  match d !! key with
  | Some v => Ok v
  | None => Raise (mkExc "KeyError" ("'" +:+ key +:+ "'"))
  end.

(** The [for event in ...] loop.  [all_logs] is mutated in place, so what
    was appended before an exception stays appended: the loop returns the
    list as it stands together with the exception that ended it, if any. *)
Fixpoint append_events (log_group : string) (evs : list (gmap string pyval))
    (all_logs : list LogEntry) : list LogEntry * option Exception :=
  match evs with
  | [] => (all_logs, None)
  | event :: rest =>
      match getitem event "timestamp" with
      | Raise e => (all_logs, Some e)
      | Ok ts =>
          match getitem event "message" with
          | Raise e => (all_logs, Some e)
          | Ok msg =>
              append_events log_group rest (all_logs ++ [mkLogEntry ts msg log_group])
          end
      end
  end.

(** One iteration of [for log_group in log_groups], with its own guard. *)
Definition fetch_group (start_ms end_ms : Z) (log_group : string)
    (all_logs : list LogEntry) : M (list LogEntry) :=
  fun w =>
    match call_filter_log_events log_group start_ms end_ms 50 w with
    | (Raise e, t) =>
        (Ok all_logs,
         t ++ [EvPrint ("Could not fetch logs from " +:+ log_group +:+ ": " +:+ exc_str e)])
    | (Ok response, t) =>
        match append_events log_group (default [] (events response)) all_logs with
        | (all_logs', None) => (Ok all_logs', t)
        | (all_logs', Some e) =>
            (Ok all_logs',
             t ++ [EvPrint ("Could not fetch logs from " +:+ log_group +:+ ": " +:+ exc_str e)])
        end
    end.

Fixpoint fetch_groups (start_ms end_ms : Z) (groups : list string)
    (all_logs : list LogEntry) : M (list LogEntry) :=
  match groups with
  | [] => mret all_logs
  | log_group :: rest =>
      all_logs' ← fetch_group start_ms end_ms log_group all_logs;
      fetch_groups start_ms end_ms rest all_logs'
  end.

(** [l[-30:]] *)
Definition last30 {A} (l : list A) : list A := skipn (length l - 30)%nat l.

Definition fetch_recent_logs : M (list LogEntry) :=
  try_catch
    (end_time ← now_ms;
     let start_time := end_time - 30 * 60 * 1000 in
     all_logs ← fetch_groups start_time end_time log_groups [];
     mret (last30 all_logs))
    (fun e => print ("Error fetching logs: " +:+ exc_str e);; mret []).

(** ** lambda_handler *)

Definition lambda_handler (event context : pyval) : M Response :=
  try_catch
    (print "Starting log analysis...";;
     log_data ← fetch_recent_logs;
     match log_data with
     | [] =>
         print "No recent logs to analyze";;
         mret (create_response 200 (BodyStr "No recent logs to analyze"))
     | _ :: _ =>
         print ("Found " +:+ fmt_int (len log_data) +:+ " log entries");;
         analysis_result ← lift (analyze_logs_simple log_data);
         store_metrics analysis_result;;
         print "Analysis completed successfully";;
         mret (create_response 200
                 (BodyDict [("message", JStr "Log analysis completed");
                            ("logs_analyzed", JInt (len log_data));
                            ("analysis", analysis_json analysis_result)]))
     end)
    (fun e =>
       print ("Error in lambda_handler: " +:+ exc_str e);;
       mret (create_response 500 (BodyStr ("Error: " +:+ exc_str e)))).

(** * Specification-side notions *)

(** [w] occurs somewhere in [m]. *)
Definition Substring (w m : string) : Prop :=
  exists a b, m = a +:+ w +:+ b.

(** The lower-cased message contains one of the key words. *)
Definition Mentions (words : list string) (msg : string) : Prop :=
  exists word, In word words /\ Substring word (lower msg).

(** Every entry carries a string under ['message'], as the log store
    promises. *)
Definition well_formed (log_data : list LogEntry) : bool :=
  forallb (fun log => match message log with PyStr _ => true | _ => false end) log_data.

(** The tally of section 4.2: every entry falls in exactly one of three
    classes, the error key words being looked at first. *)
Inductive Tally : list LogEntry -> Z -> Z -> Z -> Prop :=
| Tally_nil : Tally [] 0 0 0
| Tally_error log rest msg e w n :
    message log = PyStr msg ->
    Mentions error_words msg ->
    Tally rest e w n -> Tally (log :: rest) (e + 1) w n
| Tally_warning log rest msg e w n :
    message log = PyStr msg ->
    ~ Mentions error_words msg -> Mentions warning_words msg ->
    Tally rest e w n -> Tally (log :: rest) e (w + 1) n
| Tally_neutral log rest msg e w n :
    message log = PyStr msg ->
    ~ Mentions error_words msg -> ~ Mentions warning_words msg ->
    Tally rest e w n -> Tally (log :: rest) e w (n + 1).

(** What one entry with message [msg] does to the counters. *)
Definition step_spec (msg : string) (c c' : Counters) : Prop :=
  (Mentions error_words msg ->
     c' = mkCounters (error_count c + 1) (warning_count c)) /\
  (~ Mentions error_words msg -> Mentions warning_words msg ->
     c' = mkCounters (error_count c) (warning_count c + 1)) /\
  (~ Mentions error_words msg -> ~ Mentions warning_words msg -> c' = c).

(** The severity tiers and their order, low < medium < high. *)
Inductive Tier : Type := Low | Medium | High.

Definition tier_of (s : string) : option Tier :=
  if String.eqb s "low" then Some Low
  else if String.eqb s "medium" then Some Medium
  else if String.eqb s "high" then Some High
  else None.

Definition tier_rank (t : Tier) : Z :=
  match t with Low => 0 | Medium => 1 | High => 2 end.

Definition is_put_metric_data (ev : Event) : bool :=
  match ev with EvPutMetricData _ _ => true | _ => false end.

(** A trace in which the metrics store is never called. *)
Definition no_metrics_call (t : list Event) : Prop :=
  Forall (fun ev => is_put_metric_data ev = false) t.

(** ** Sample inputs *)

Module Samples.

Definition entry (msg : string) : LogEntry :=
  mkLogEntry (PyInt 1700000000000) (PyStr msg) "/aws/lambda/ai-infra-monitor".

Definition six_errors : list LogEntry :=
  [entry "Error: disk full"; entry "Connection Error"; entry "Error 503";
   entry "Timeout Error on shard 2"; entry "Error"; entry "I/O Error (retry)"].

Definition one_error : list LogEntry := [entry "Error: disk full"].

Definition mixed : list LogEntry :=
  [entry "Request FAILED"; entry "Deprecated call"; entry "heartbeat";
   entry "critical warning"].

End Samples.

Module Worlds.

Definition log_event (ts : Z) (msg : pyval) : gmap string pyval :=
  {[ "timestamp" := PyInt ts; "message" := msg ]}.

Definition access_denied : Exception :=
  mkExc "ClientError" "An error occurred (AccessDeniedException)".

(** The log store is unreachable. *)
Definition logs_down : World :=
  mkWorld 1700000000000
    (fun _ _ _ _ => Raise access_denied)
    (fun _ _ => Ok ()).

(** One log line is found, and the metrics store refuses the points. *)
Definition metrics_down : World :=
  mkWorld 1700000000000
    (fun _ _ _ _ =>
       Ok (mkFilterResponse (Some [log_event 1699999999000 (PyStr "Error: disk full")])))
    (fun _ _ => Raise access_denied).

(** The log store hands back an event whose message is not a string. *)
Definition bad_message : World :=
  mkWorld 1700000000000
    (fun _ _ _ _ =>
       Ok (mkFilterResponse (Some [log_event 1699999999000 (PyInt 42)])))
    (fun _ _ => Ok ()).

End Worlds.

(** An exception [e] raised by the analysis of the fetched entries: the
    stage of the pipeline that runs under no guard but the handler's. *)
Definition raised_in_analysis (w : World) (e : Exception) : Prop :=
  exists log_data,
    fst (fetch_recent_logs w) = Ok log_data /\ log_data <> [] /\
    analyze_logs_simple log_data = Raise e.

(** An exception [e] raised by the metrics store while the analysis of the
    fetched entries is being published. *)
Definition raised_in_publish (w : World) (e : Exception) : Prop :=
  exists log_data analysis,
    fst (fetch_recent_logs w) = Ok log_data /\ log_data <> [] /\
    analyze_logs_simple log_data = Ok analysis /\
    put_metric_data w "Infrastructure/AI-Monitor" (metric_data analysis) = Raise e.

(** ** Notions used to describe the fetch and the trace *)

(** The event has both keys the fetch loop reads. *)
Definition has_keys (event : gmap string pyval) : bool :=
  match event !! "timestamp", event !! "message" with
  | Some _, Some _ => true
  | _, _ => false
  end.

(** [log] is the dictionary the fetch loop builds from [event] for the
    stream [g]. *)
Definition entry_of (g : string) (event : gmap string pyval) (log : LogEntry) : Prop :=
  event !! "timestamp" = Some (timestamp log) /\
  event !! "message" = Some (message log) /\
  log_group log = g.

(** The [KeyError] the fetch loop meets on an event that lacks a key:
    ['timestamp'] is read first. *)
Definition missing_key_error (event : gmap string pyval) : Exception :=
  match event !! "timestamp" with
  | None => mkExc "KeyError" "'timestamp'"
  | Some _ => mkExc "KeyError" "'message'"
  end.

Definition is_filter_log_events (ev : Event) : bool :=
  match ev with EvFilterLogEvents _ _ _ _ => true | _ => false end.

(** How many times the metrics store, or the log store, was called. *)
Definition count_put_metric_data (t : list Event) : nat :=
  length (List.filter is_put_metric_data t).

Definition count_filter_log_events (t : list Event) : nat :=
  length (List.filter is_filter_log_events t).

(** Every character is printable ASCII, from the space to the tilde. *)
Definition printable_char (c : ascii) : bool :=
  (32 <=? nat_of_ascii c)%nat && (nat_of_ascii c <=? 126)%nat.

Fixpoint printable (s : string) : bool :=
  match s with
  | EmptyString => true
  | String c s' => printable_char c && printable s'
  end.

(** The entry with its message lower-cased beforehand, when it is a string. *)
Definition lowered (log : LogEntry) : LogEntry :=
  match message log with
  | PyStr s => mkLogEntry (timestamp log) (PyStr (lower s)) (log_group log)
  | _ => log
  end.

Module MoreWorlds.

(** Thirty-five well-formed events in the window. *)
Definition busy_events : list (gmap string pyval) :=
  map (fun i => Worlds.log_event (1699999990000 + Z.of_nat i) (PyStr "request served"))
      (seq 0 35).

Definition busy : World :=
  mkWorld 1700000000000
    (fun _ _ _ _ => Ok (mkFilterResponse (Some busy_events)))
    (fun _ _ => Ok ()).

(** Two good events, then one without a message, then a good one. *)
Definition broken_events : list (gmap string pyval) :=
  [Worlds.log_event 1 (PyStr "Error: disk full");
   Worlds.log_event 2 (PyStr "warn: slow");
   {[ "timestamp" := PyInt 3 ]};
   Worlds.log_event 4 (PyStr "never seen")].

Definition broken : World :=
  mkWorld 1700000000000
    (fun _ _ _ _ => Ok (mkFilterResponse (Some broken_events)))
    (fun _ _ => Ok ()).

(** As [Worlds.metrics_down], with a metrics store that accepts the points. *)
Definition metrics_up : World :=
  mkWorld 1700000000000
    (filter_log_events Worlds.metrics_down)
    (fun _ _ => Ok ()).

End MoreWorlds.

(** ** Reading JSON text back *)

(** [sep.join(l)] *)
Fixpoint join (sep : string) (l : list string) : string :=
  match l with
  | [] => EmptyString
  | x :: rest =>
      match rest with
      | [] => x
      | _ :: _ => x +:+ sep +:+ join sep rest
      end
  end.

(** The number of values in a JSON value, itself included, plus one for
    each element or member: enough steps for the reader below. *)
Fixpoint json_size (j : json) : nat :=
  match j with
  | JStr _ => 1
  | JInt _ => 1
  | JList items => S (list_sum (map (fun x => S (json_size x)) items))
  | JDict fields => S (list_sum (map (fun kv => S (json_size (snd kv))) fields))
  end.

(** A reader of JSON text (RFC 8259: strings with their escapes, integers,
    arrays, objects, white space between tokens), for code points below
    256.  It is the yardstick for what [json.dumps] writes: the text is JSON
    for a value when this reader gives the value back. *)
Module Decode.

Definition is_ws (c : ascii) : bool :=
  let n := nat_of_ascii c in
  (n =? 32)%nat || (n =? 9)%nat || (n =? 10)%nat || (n =? 13)%nat.

Fixpoint skip_ws (s : string) : string :=
  match s with
  | EmptyString => EmptyString
  | String c s' => if is_ws c then skip_ws s' else s
  end.

Definition hex_value (c : ascii) : option nat :=
  let n := nat_of_ascii c in
  if (48 <=? n)%nat && (n <=? 57)%nat then Some (n - 48)%nat
  else if (97 <=? n)%nat && (n <=? 102)%nat then Some (n - 87)%nat
  else if (65 <=? n)%nat && (n <=? 70)%nat then Some (n - 55)%nat
  else None.

(** The character a two-character escape stands for, by its second
    character. *)
Definition simple_escape (c : ascii) : option ascii :=
  let n := nat_of_ascii c in
  if (n =? 34)%nat then Some (ascii_of_nat 34)
  else if (n =? 92)%nat then Some (ascii_of_nat 92)
  else if (n =? 47)%nat then Some (ascii_of_nat 47)
  else if (n =? 98)%nat then Some (ascii_of_nat 8)
  else if (n =? 102)%nat then Some (ascii_of_nat 12)
  else if (n =? 110)%nat then Some (ascii_of_nat 10)
  else if (n =? 114)%nat then Some (ascii_of_nat 13)
  else if (n =? 116)%nat then Some (ascii_of_nat 9)
  else None.

Definition cons_char (c : ascii) (r : option (string * string))
  : option (string * string) :=
  match r with
  | Some (s, rest) => Some (String c s, rest)
  | None => None
  end.

(** The four hexadecimal digits of a [\u] escape, as a code point below
    256. *)
Definition hex4 (a b c d : ascii) : option ascii :=
  match hex_value a, hex_value b, hex_value c, hex_value d with
  | Some x, Some y, Some z, Some t =>
      if ((x =? 0) && (y =? 0))%nat then Some (ascii_of_nat (16 * z + t)) else None
  | _, _, _, _ => None
  end.

(** The characters of a string, from after its opening quote up to its
    closing quote, and the text left after it. *)
Fixpoint read_chars (s : string) : option (string * string) :=
  match s with
  | EmptyString => None
  | String c s1 =>
      let n := nat_of_ascii c in
      if (n =? 34)%nat then Some (EmptyString, s1)
      else if (n =? 92)%nat then
        match s1 with
        | EmptyString => None
        | String e s2 =>
            match simple_escape e with
            | Some d => cons_char d (read_chars s2)
            | None =>
                if (nat_of_ascii e =? 117)%nat then
                  match s2 with
                  | String h1 (String h2 (String h3 (String h4 s3))) =>
                      match hex4 h1 h2 h3 h4 with
                      | Some d => cons_char d (read_chars s3)
                      | None => None
                      end
                  | _ => None
                  end
                else None
            end
        end
      else if (32 <=? n)%nat then cons_char c (read_chars s1)
      else None
  end.

Definition is_number_char (c : ascii) : bool :=
  let n := nat_of_ascii c in
  ((48 <=? n)%nat && (n <=? 57)%nat) || (n =? 45)%nat.

(** The longest run of sign and digit characters at the head of [s]. *)
Fixpoint span_number (s : string) : string * string :=
  match s with
  | EmptyString => (EmptyString, EmptyString)
  | String c s' =>
      if is_number_char c
      then let '(a, rest) := span_number s' in (String c a, rest)
      else (EmptyString, s)
  end.

Definition read_number (s : string) : option (Z * string) :=
  let '(a, rest) := span_number s in
  match NilZero.int_of_string a with
  | Some d => Some (Z.of_int d, rest)
  | None => None
  end.

(** One value, then the elements of an array up to its bracket, then the
    members of an object up to its brace; [fuel] bounds the nesting. *)
Fixpoint read_value (fuel : nat) (s : string) {struct fuel} : option (json * string) :=
  match fuel with
  | O => None
  | S fuel' =>
      match skip_ws s with
      | EmptyString => None
      | String c s1 =>
          let n := nat_of_ascii c in
          if (n =? 34)%nat then
            match read_chars s1 with
            | Some (str, rest) => Some (JStr str, rest)
            | None => None
            end
          else if (n =? 91)%nat then
            match skip_ws s1 with
            | String c2 s2 =>
                if (nat_of_ascii c2 =? 93)%nat then Some (JList [], s2)
                else match read_items fuel' s1 with
                     | Some (items, rest) => Some (JList items, rest)
                     | None => None
                     end
            | EmptyString => None
            end
          else if (n =? 123)%nat then
            match skip_ws s1 with
            | String c2 s2 =>
                if (nat_of_ascii c2 =? 125)%nat then Some (JDict [], s2)
                else match read_members fuel' s1 with
                     | Some (fields, rest) => Some (JDict fields, rest)
                     | None => None
                     end
            | EmptyString => None
            end
          else
            match read_number (String c s1) with
            | Some (z, rest) => Some (JInt z, rest)
            | None => None
            end
      end
  end
with read_items (fuel : nat) (s : string) {struct fuel} : option (list json * string) :=
  match fuel with
  | O => None
  | S fuel' =>
      match read_value fuel' s with
      | None => None
      | Some (x, s1) =>
          match skip_ws s1 with
          | EmptyString => None
          | String c s2 =>
              if (nat_of_ascii c =? 44)%nat then
                match read_items fuel' s2 with
                | Some (xs, rest) => Some (x :: xs, rest)
                | None => None
                end
              else if (nat_of_ascii c =? 93)%nat then Some ([x], s2)
              else None
          end
      end
  end
with read_members (fuel : nat) (s : string) {struct fuel}
  : option (list (string * json) * string) :=
  match fuel with
  | O => None
  | S fuel' =>
      match skip_ws s with
      | EmptyString => None
      | String q s1 =>
          if (nat_of_ascii q =? 34)%nat then
            match read_chars s1 with
            | None => None
            | Some (k, s2) =>
                match skip_ws s2 with
                | EmptyString => None
                | String colon s3 =>
                    if (nat_of_ascii colon =? 58)%nat then
                      match read_value fuel' s3 with
                      | None => None
                      | Some (v, s4) =>
                          match skip_ws s4 with
                          | EmptyString => None
                          | String c s5 =>
                              if (nat_of_ascii c =? 44)%nat then
                                match read_members fuel' s5 with
                                | Some (kvs, rest) => Some ((k, v) :: kvs, rest)
                                | None => None
                                end
                              else if (nat_of_ascii c =? 125)%nat then Some ([(k, v)], s5)
                              else None
                          end
                      end
                    else None
                end
            end
          else None
      end
  end.

(** [json.loads]: the whole text is one value, white space aside. *)
Definition loads (s : string) : option json :=
  match read_value (S (String.length s)) s with
  | Some (j, rest) =>
      match skip_ws rest with
      | EmptyString => Some j
      | String _ _ => None
      end
  | None => None
  end.

End Decode.

(** A character a JSON value written by [json.dumps] can start with. *)
Definition value_start (c : ascii) : bool :=
  let n := nat_of_ascii c in
  (n =? 34)%nat || (n =? 91)%nat || (n =? 123)%nat || Decode.is_number_char c.

(** Text that does not go on with a sign or a digit, so that a number
    written before it ends where it should. *)
Definition number_safe (rest : string) : bool :=
  match rest with
  | EmptyString => true
  | String c _ => negb (Decode.is_number_char c)
  end.

(** The text of [j] reads back as [j]: with fuel for its size, and before
    text that does not go on with a sign or a digit. *)
Definition reads_back (j : json) : Prop :=
  forall fuel rest,
    (json_size j <= fuel)%nat -> number_safe rest = true ->
    Decode.read_value fuel (Json.dumps j +:+ rest) = Some (j, rest).

(** A way to write JSON text down here: every apostrophe of [s] stands for
    a double quote. *)
Fixpoint dq (s : string) : string :=
  match s with
  | EmptyString => EmptyString
  | String c s' =>
      String (if (nat_of_ascii c =? 39)%nat then ascii_of_nat 34 else c) (dq s')
  end.

(** The dictionary the handler answers with after analysing
    [Samples.six_errors]. *)
Definition six_errors_answer : list (string * json) :=
  [("message", JStr "Log analysis completed");
   ("logs_analyzed", JInt 6);
   ("analysis",
    analysis_json
      (mkAnalysis "high" ["High error count detected: 6 errors"]
         ["Review error logs for root cause analysis"]
         "Analyzed 6 logs: 6 errors, 0 warnings"))].

(** * Strings: the substring test and lower-casing *)

Section StringFacts.

Example fmt_int_decimal :
  fmt_int 0 = "0" /\ fmt_int 6 = "6" /\ fmt_int 12 = "12" /\ fmt_int (-3) = "-3".
Proof. repeat split; reflexivity. Qed.

Lemma append_cons c a b : String c a +:+ b = String c (a +:+ b).
Proof. reflexivity. Qed.

Lemma starts_with_spec p s :
  starts_with p s = true <-> exists t, s = p +:+ t.
Proof.
  revert s. induction p as [|a p IH]; intros s; simpl.
  - split; [intros _; exists s; reflexivity | reflexivity].
  - destruct s as [|b s].
    + split; [discriminate | intros [t Ht]; rewrite append_cons in Ht; discriminate].
    + destruct (ascii_dec a b) as [->|Hne].
      * rewrite IH. split; intros [t Ht]; exists t;
          rewrite append_cons in *; congruence.
      * split; [discriminate | intros [t Ht]; rewrite append_cons in Ht; congruence].
Qed.

Lemma str_in_spec w m : str_in w m = true <-> Substring w m.
Proof.
  unfold Substring. induction m as [|c m IH]; simpl.
  - rewrite orb_false_r, starts_with_spec. split.
    + intros [t Ht]. exists EmptyString, t. exact Ht.
    + intros [a [b Hab]]. destruct a as [|c a].
      * exists b. exact Hab.
      * rewrite append_cons in Hab. discriminate.
  - rewrite orb_true_iff, starts_with_spec, IH. split.
    + intros [[t Ht] | [a [b Hab]]].
      * exists EmptyString, t. exact Ht.
      * exists (String c a), b. rewrite append_cons. congruence.
    + intros [a [b Hab]]. destruct a as [|c' a].
      * left. exists b. exact Hab.
      * right. exists a, b. rewrite append_cons in Hab. congruence.
Qed.

Lemma lower_app a b : lower (a +:+ b) = lower a +:+ lower b.
Proof.
  induction a as [|c a IH]; [reflexivity |].
  rewrite append_cons. simpl. now rewrite IH, append_cons.
Qed.

Lemma Substring_lower w m : Substring w m -> Substring (lower w) (lower m).
Proof.
  intros [a [b ->]]. exists (lower a), (lower b). now rewrite !lower_app.
Qed.

Lemma any_word_in_spec words msg :
  any_word_in words (lower msg) = true <-> Mentions words msg.
Proof.
  unfold any_word_in, Mentions. rewrite existsb_exists.
  split; intros [word [Hin H]]; exists word; split; try assumption;
    now apply str_in_spec.
Qed.

Lemma any_word_in_false words msg :
  any_word_in words (lower msg) = false <-> ~ Mentions words msg.
Proof.
  rewrite <- any_word_in_spec. destruct (any_word_in words (lower msg)); split;
    congruence.
Qed.

(** A message with the word "Error" in it mentions an error key word. *)
Lemma Error_is_error msg : Substring "Error" msg -> Mentions error_words msg.
Proof.
  intros H. exists "error". split; [now left |].
  exact (Substring_lower "Error" msg H).
Qed.

End StringFacts.

(** * The classifier loop *)

Section Classifier.

Lemma classify_entry_str c log msg :
  message log = PyStr msg ->
  exists c', classify_entry c log = Ok c' /\ step_spec msg c c'.
Proof.
  intros Hm. unfold classify_entry, step_spec. rewrite Hm. cbn [py_lower].
  destruct (any_word_in error_words (lower msg)) eqn:He.
  - apply any_word_in_spec in He. eexists. split; [reflexivity |].
    repeat split; intros; try reflexivity; contradiction.
  - apply any_word_in_false in He.
    destruct (any_word_in warning_words (lower msg)) eqn:Hw.
    + apply any_word_in_spec in Hw. eexists. split; [reflexivity |].
      repeat split; intros; try reflexivity; contradiction.
    + apply any_word_in_false in Hw. eexists. split; [reflexivity |].
      repeat split; intros; try reflexivity; contradiction.
Qed.

Lemma classify_loop_app c l1 l2 :
  classify_loop c (l1 ++ l2) =
  match classify_loop c l1 with
  | Ok c' => classify_loop c' l2
  | Raise e => Raise e
  end.
Proof.
  revert c. induction l1 as [|log l1 IH]; intros c; simpl; [reflexivity |].
  destruct (classify_entry c log); [apply IH | reflexivity].
Qed.

Lemma well_formed_cons log rest :
  well_formed (log :: rest) = true ->
  (exists msg, message log = PyStr msg) /\ well_formed rest = true.
Proof.
  unfold well_formed. simpl. intros H. apply andb_true_iff in H as [H1 H2].
  split; [| exact H2]. destruct (message log); try discriminate. now eexists.
Qed.

Lemma well_formed_app l1 l2 :
  well_formed (l1 ++ l2) = true ->
  well_formed l1 = true /\ well_formed l2 = true.
Proof. unfold well_formed. rewrite forallb_app. apply andb_true_iff. Qed.

(** The loop never raises on well-formed entries, and what it adds to the
    counters is the tally of the entries. *)
Lemma classify_loop_tally log_data :
  well_formed log_data = true ->
  exists e w n,
    Tally log_data e w n /\
    0 <= e /\ 0 <= w /\ 0 <= n /\ e + w + n = len log_data /\
    forall c, classify_loop c log_data =
              Ok (mkCounters (error_count c + e) (warning_count c + w)).
Proof.
  induction log_data as [|log rest IH]; intros Hwf.
  - exists 0, 0, 0. repeat split; try lia; [constructor |].
    intros [e0 w0]. simpl. now rewrite !Z.add_0_r.
  - apply well_formed_cons in Hwf as [[msg Hmsg] Hrest].
    destruct (IH Hrest) as (e & w & n & HT & He & Hw & Hn & Hsum & Hloop).
    assert (Hlen : len (log :: rest) = len rest + 1)
      by (unfold len; simpl length; lia).
    unfold classify_loop; fold classify_loop. unfold classify_entry.
    rewrite Hmsg. cbn [py_lower].
    destruct (any_word_in error_words (lower msg)) eqn:Herr.
    + apply any_word_in_spec in Herr. exists (e + 1), w, n.
      repeat split; try lia; [econstructor; eassumption |].
      intros c. rewrite Hloop. simpl. f_equal. f_equal. lia.
    + apply any_word_in_false in Herr.
      destruct (any_word_in warning_words (lower msg)) eqn:Hwarn.
      * apply any_word_in_spec in Hwarn. exists e, (w + 1), n.
        repeat split; try lia; [eapply Tally_warning; eassumption |].
        intros c. rewrite Hloop. simpl. f_equal. f_equal. lia.
      * apply any_word_in_false in Hwarn. exists e, w, (n + 1).
        repeat split; try lia; [eapply Tally_neutral; eassumption |].
        intros c. now rewrite Hloop.
Qed.

(** The tally of a sequence is unique: no entry can fall in two classes. *)
Lemma Tally_functional log_data e w n e' w' n' :
  Tally log_data e w n -> Tally log_data e' w' n' ->
  e = e' /\ w = w' /\ n = n'.
Proof.
  intros H. revert e' w' n'.
  induction H as [| log rest msg e w n Hm He _ IH
                  | log rest msg e w n Hm He Hw _ IH
                  | log rest msg e w n Hm He Hw _ IH];
    intros e' w' n' H'; inversion H'; subst;
    try (repeat split; reflexivity);
    match goal with
    | Ha : message ?l = PyStr ?a, Hb : message ?l = PyStr ?b |- _ =>
        rewrite Ha in Hb; injection Hb as <-
    end;
    try contradiction;
    match goal with
    | HT : Tally rest _ _ _ |- _ => destruct (IH _ _ _ HT) as (-> & -> & ->)
    end;
    repeat split; reflexivity.
Qed.

(** From zero, the counters the loop ends with are the tally itself. *)
Lemma classify_loop_counts log_data :
  well_formed log_data = true ->
  exists c n,
    classify_loop (mkCounters 0 0) log_data = Ok c /\
    Tally log_data (error_count c) (warning_count c) n /\
    0 <= error_count c /\ 0 <= warning_count c /\ 0 <= n /\
    error_count c + warning_count c + n = len log_data.
Proof.
  intros Hwf.
  destruct (classify_loop_tally log_data Hwf)
    as (e & w & n & HT & He & Hw & Hn & Hsum & Hloop).
  exists (mkCounters e w), n. rewrite Hloop. simpl. repeat split; assumption.
Qed.

(** The dictionary returned once the loop has ended with counters [c]. *)
Lemma analyze_of_counters log_data c :
  classify_loop (mkCounters 0 0) log_data = Ok c ->
  analyze_logs_simple log_data =
  Ok {| severity := fst (determine_severity c);
        issues_found := snd (determine_severity c);
        recommendations := build_recommendations c;
        summary := "Analyzed " +:+ fmt_int (len log_data) +:+ " logs: "
                   +:+ fmt_int (error_count c) +:+ " errors, "
                   +:+ fmt_int (warning_count c) +:+ " warnings" |}.
Proof.
  intros H. unfold analyze_logs_simple. rewrite H.
  now destruct (determine_severity c).
Qed.

Lemma analyze_raises log_data e :
  analyze_logs_simple log_data = Raise e <->
  classify_loop (mkCounters 0 0) log_data = Raise e.
Proof.
  unfold analyze_logs_simple.
  destruct (classify_loop (mkCounters 0 0) log_data) as [c|e'].
  - destruct (determine_severity c). split; discriminate.
  - split; intros H; injection H as ->; reflexivity.
Qed.

End Classifier.

(** * The analysis *)

Section Analysis.

(** With counters [c], the [if] chain picks exactly one row of the table. *)
Lemma determine_severity_rows c :
  (5 < error_count c ->
     determine_severity c =
     ("high", ["High error count detected: " +:+ fmt_int (error_count c) +:+ " errors"])) /\
  (error_count c <= 5 -> 2 < error_count c ->
     determine_severity c =
     ("medium", ["Moderate error count: " +:+ fmt_int (error_count c) +:+ " errors"])) /\
  (error_count c <= 2 -> 10 < warning_count c ->
     determine_severity c =
     ("medium", ["Many warnings detected: " +:+ fmt_int (warning_count c) +:+ " warnings"])) /\
  (error_count c <= 2 -> warning_count c <= 10 ->
     determine_severity c = ("low", [])).
Proof.
  unfold determine_severity.
  destruct (Z.ltb_spec 5 (error_count c)); destruct (Z.ltb_spec 2 (error_count c));
    destruct (Z.ltb_spec 10 (warning_count c));
    repeat split; intros; try reflexivity; lia.
Qed.

Lemma determine_severity_cases c :
  exists sev issues,
    determine_severity c = (sev, issues) /\
    ((sev = "low" /\ issues = []) \/
     (sev = "medium" /\ exists i, issues = [i]) \/
     (sev = "high" /\ exists i, issues = [i])).
Proof.
  unfold determine_severity.
  destruct (5 <? error_count c); [| destruct (2 <? error_count c);
    [| destruct (10 <? warning_count c)]];
    do 2 eexists; (split; [reflexivity |]); eauto 6.
Qed.

Lemma determine_severity_monotone c1 c2 :
  warning_count c1 = warning_count c2 ->
  error_count c1 <= error_count c2 ->
  exists t1 t2,
    tier_of (fst (determine_severity c1)) = Some t1 /\
    tier_of (fst (determine_severity c2)) = Some t2 /\
    tier_rank t1 <= tier_rank t2.
Proof.
  intros Hw He. unfold determine_severity. rewrite Hw.
  destruct (Z.ltb_spec 5 (error_count c1)); destruct (Z.ltb_spec 5 (error_count c2));
    destruct (Z.ltb_spec 2 (error_count c1)); destruct (Z.ltb_spec 2 (error_count c2));
    destruct (10 <? warning_count c2);
    try lia; do 2 eexists; (split; [reflexivity |]); (split; [reflexivity |]);
    simpl; lia.
Qed.

Lemma build_recommendations_cases c :
  (error_count c <= 0 -> warning_count c <= 5 ->
     build_recommendations c = ["Continue monitoring - system appears stable"]) /\
  (0 < error_count c -> warning_count c <= 5 ->
     build_recommendations c = ["Review error logs for root cause analysis"]) /\
  (error_count c <= 0 -> 5 < warning_count c ->
     build_recommendations c = ["Address warning conditions to prevent issues"]) /\
  (0 < error_count c -> 5 < warning_count c ->
     build_recommendations c = ["Review error logs for root cause analysis";
                                "Address warning conditions to prevent issues"]).
Proof.
  unfold build_recommendations.
  destruct (Z.ltb_spec 0 (error_count c)); destruct (Z.ltb_spec 5 (warning_count c));
    repeat split; intros; try reflexivity; lia.
Qed.

(** Entries that all mention an error key word are all counted as errors. *)
Lemma Tally_all_errors log_data :
  Forall (fun log => exists msg, message log = PyStr msg /\ Substring "Error" msg)
         log_data ->
  Tally log_data (len log_data) 0 0.
Proof.
  induction 1 as [| log rest [msg [Hm Hs]] _ IH].
  - constructor.
  - replace (len (log :: rest)) with (len rest + 1)
      by (unfold len; simpl length; lia).
    eapply Tally_error; eauto using Error_is_error.
Qed.

End Analysis.

(** C1. The severity and the issue list follow the decision table, read top
    to bottom with the first matching row winning: more than 5 errors give
    "high", otherwise more than 2 errors give "medium", otherwise more than
    10 warnings give "medium", otherwise "low" with no issue.  Six entries
    that contain the word "Error" give "high", the issue
    "High error count detected: 6 errors" and the single recommendation
    to review the error logs. *)
Theorem severity_decision_table (log_data : list LogEntry) :
  well_formed log_data = true ->
  exists c r,
    classify_loop (mkCounters 0 0) log_data = Ok c /\
    analyze_logs_simple log_data = Ok r /\
    (5 < error_count c ->
       severity r = "high" /\
       issues_found r =
         ["High error count detected: " +:+ fmt_int (error_count c) +:+ " errors"]) /\
    (error_count c <= 5 -> 2 < error_count c ->
       severity r = "medium" /\
       issues_found r =
         ["Moderate error count: " +:+ fmt_int (error_count c) +:+ " errors"]) /\
    (error_count c <= 2 -> 10 < warning_count c ->
       severity r = "medium" /\
       issues_found r =
         ["Many warnings detected: " +:+ fmt_int (warning_count c) +:+ " warnings"]) /\
    (error_count c <= 2 -> warning_count c <= 10 ->
       severity r = "low" /\ issues_found r = []) /\
    (length log_data = 6%nat ->
     Forall (fun log => exists msg, message log = PyStr msg /\ Substring "Error" msg)
            log_data ->
       severity r = "high" /\
       issues_found r = ["High error count detected: 6 errors"] /\
       recommendations r = ["Review error logs for root cause analysis"]).
Proof.
  intros Hwf.
  destruct (classify_loop_counts log_data Hwf)
    as (c & n & Hloop & HT & He & Hw & Hn & Hsum).
  exists c. eexists.
  split; [exact Hloop |]. split; [apply (analyze_of_counters _ _ Hloop) |].
  destruct (determine_severity_rows c) as (R1 & R2 & R3 & R4).
  cbn [severity issues_found recommendations].
  split; [intros H; now rewrite (R1 H) |].
  split; [intros H H'; now rewrite (R2 H H') |].
  split; [intros H H'; now rewrite (R3 H H') |].
  split; [intros H H'; now rewrite (R4 H H') |].
  intros Hlen HF.
  destruct (Tally_functional _ _ _ _ _ _ _ HT (Tally_all_errors _ HF))
    as (Hec & Hwc & _).
  unfold len in Hec. rewrite Hlen in Hec. destruct c as [ec wc].
  simpl in Hec, Hwc. subst ec wc. repeat split; reflexivity.
Qed.

Lemma severity_decision_table_witness :
  exists r, analyze_logs_simple Samples.six_errors = Ok r /\
            severity r = "high" /\
            issues_found r = ["High error count detected: 6 errors"] /\
            recommendations r = ["Review error logs for root cause analysis"].
Proof.
  destruct (severity_decision_table Samples.six_errors eq_refl)
    as (c & r & _ & Hr & _ & _ & _ & _ & Hsix).
  exists r. split; [exact Hr |]. apply Hsix; [reflexivity |].
  repeat constructor; eexists; (split; [reflexivity |]);
    apply str_in_spec; reflexivity.
Defined.

(** C2. Classification partitions the entries.  The counters the loop ends
    with are the tally of section 4.2, in which every entry falls in exactly
    one class, so errors + warnings + neutral entries = number of entries;
    and at every position of the input the entry met there adds one to
    [error_count] alone when it mentions an error key word, one to
    [warning_count] alone when it mentions no error key word but a warning
    key word, and leaves both counters alone otherwise. *)
Theorem classification_partitions (log_data : list LogEntry) :
  well_formed log_data = true ->
  exists c neutral_count,
    classify_loop (mkCounters 0 0) log_data = Ok c /\
    Tally log_data (error_count c) (warning_count c) neutral_count /\
    error_count c + warning_count c + neutral_count = len log_data /\
    (forall pre log post, log_data = pre ++ log :: post ->
       exists msg c0 c1,
         message log = PyStr msg /\
         classify_loop (mkCounters 0 0) pre = Ok c0 /\
         classify_loop (mkCounters 0 0) (pre ++ [log]) = Ok c1 /\
         step_spec msg c0 c1).
Proof.
  intros Hwf.
  destruct (classify_loop_counts log_data Hwf)
    as (c & n & Hloop & HT & _ & _ & _ & Hsum).
  exists c, n. repeat split; try assumption.
  intros pre log post ->.
  apply well_formed_app in Hwf as [Hpre Hrest].
  apply well_formed_cons in Hrest as [[msg Hmsg] _].
  destruct (classify_loop_counts pre Hpre) as (c0 & _ & Hc0 & _).
  destruct (classify_entry_str c0 log msg Hmsg) as (c1 & Hstep & Hspec).
  exists msg, c0, c1. repeat split; try assumption; try apply Hspec.
  rewrite classify_loop_app, Hc0. simpl. now rewrite Hstep.
Qed.

Lemma classification_partitions_witness :
  exists c neutral_count,
    classify_loop (mkCounters 0 0) Samples.mixed = Ok c /\
    error_count c + warning_count c + neutral_count = 4.
Proof.
  destruct (classification_partitions Samples.mixed eq_refl)
    as (c & n & Hc & _ & Hsum & _).
  exists c, n. split; [exact Hc | exact Hsum].
Defined.

(** C6. With the warning count held fixed, more errors never give a lower
    severity tier, in the order low < medium < high. *)
Theorem severity_monotone_in_error_count
    (l1 l2 : list LogEntry) (c1 c2 : Counters) (r1 r2 : AnalysisResult) :
  classify_loop (mkCounters 0 0) l1 = Ok c1 ->
  classify_loop (mkCounters 0 0) l2 = Ok c2 ->
  analyze_logs_simple l1 = Ok r1 ->
  analyze_logs_simple l2 = Ok r2 ->
  warning_count c1 = warning_count c2 ->
  error_count c1 <= error_count c2 ->
  exists t1 t2,
    tier_of (severity r1) = Some t1 /\
    tier_of (severity r2) = Some t2 /\
    tier_rank t1 <= tier_rank t2.
Proof.
  intros H1 H2 A1 A2 Hw He.
  rewrite (analyze_of_counters _ _ H1) in A1. injection A1 as <-.
  rewrite (analyze_of_counters _ _ H2) in A2. injection A2 as <-.
  exact (determine_severity_monotone c1 c2 Hw He).
Qed.

Lemma severity_monotone_in_error_count_witness :
  exists t1 t2,
    tier_of "low" = Some t1 /\ tier_of "high" = Some t2 /\
    tier_rank t1 <= tier_rank t2.
Proof.
  refine (severity_monotone_in_error_count
            Samples.one_error Samples.six_errors
            (mkCounters 1 0) (mkCounters 6 0)
            (mkAnalysis "low" [] ["Review error logs for root cause analysis"]
               "Analyzed 1 logs: 1 errors, 0 warnings")
            (mkAnalysis "high" ["High error count detected: 6 errors"]
               ["Review error logs for root cause analysis"]
               "Analyzed 6 logs: 6 errors, 0 warnings")
            _ _ _ _ _ _); try reflexivity.
  simpl. lia.
Defined.

(** C7. On the empty sequence the analysis is "low", with no issue, the
    stability recommendation alone, and the summary of zero logs. *)
Theorem analyze_empty :
  analyze_logs_simple [] =
  Ok {| severity := "low";
        issues_found := [];
        recommendations := ["Continue monitoring - system appears stable"];
        summary := "Analyzed 0 logs: 0 errors, 0 warnings" |}.
Proof. reflexivity. Qed.

(** * The metric points *)

Section Metrics.

(** [store_metrics] makes exactly one [put_metric_data] call, whatever the
    metrics store answers, and never lets an exception out. *)
Lemma store_metrics_run analysis w :
  exists lines,
    store_metrics analysis w =
    (Ok (), EvPutMetricData "Infrastructure/AI-Monitor" (metric_data analysis)
              :: lines) /\
    Forall (fun ev => is_put_metric_data ev = false) lines.
Proof.
  unfold store_metrics, try_catch, mbind, M_bind, bind, call_put_metric_data, print.
  destruct (put_metric_data w _ _) as [[]|e]; simpl;
    eexists; (split; [reflexivity |]); repeat constructor.
Qed.

End Metrics.

(** C8. At most one issue is ever reported, so the IssuesFound metric sent
    to the metrics store is 0 or 1. *)
Theorem at_most_one_issue (log_data : list LogEntry) :
  well_formed log_data = true ->
  exists r,
    analyze_logs_simple log_data = Ok r /\
    (length (issues_found r) <= 1)%nat /\
    (forall w, exists sev v,
       In (EvPutMetricData "Infrastructure/AI-Monitor"
             [mkMetric "SeverityLevel" sev "None"; mkMetric "IssuesFound" v "Count"])
          (snd (store_metrics r w)) /\
       (v = 0 \/ v = 1)).
Proof.
  intros Hwf.
  destruct (classify_loop_counts log_data Hwf) as (c & _ & Hloop & _).
  eexists. split; [apply (analyze_of_counters _ _ Hloop) |].
  cbn [issues_found].
  destruct (determine_severity_cases c)
    as (sev & issues & Hd & [[_ ->] | [[_ [i ->]] | [_ [i ->]]]]);
    rewrite Hd; (split; [simpl; lia |]); intros w;
    match goal with
    | |- context [store_metrics ?a w] =>
        destruct (store_metrics_run a w) as (lines & -> & _)
    end;
    do 2 eexists; (split; [left; reflexivity |]);
    unfold issues_count, len; simpl; lia.
Qed.

Lemma at_most_one_issue_witness :
  exists r, analyze_logs_simple Samples.six_errors = Ok r /\
            (length (issues_found r) <= 1)%nat.
Proof.
  destruct (at_most_one_issue Samples.six_errors eq_refl) as (r & Hr & Hlen & _).
  exists r. split; [exact Hr | exact Hlen].
Defined.

(** C9. There are always one or two recommendations: the stability message
    alone exactly when neither rule fires, and otherwise the error
    recommendation, the warning recommendation, or both in that order. *)
Theorem recommendations_shape (log_data : list LogEntry) :
  well_formed log_data = true ->
  exists c r,
    classify_loop (mkCounters 0 0) log_data = Ok c /\
    analyze_logs_simple log_data = Ok r /\
    recommendations r <> [] /\
    (length (recommendations r) <= 2)%nat /\
    (In "Continue monitoring - system appears stable" (recommendations r) <->
     ~ 0 < error_count c /\ ~ 5 < warning_count c) /\
    (~ 0 < error_count c -> ~ 5 < warning_count c ->
       recommendations r = ["Continue monitoring - system appears stable"]) /\
    (0 < error_count c -> ~ 5 < warning_count c ->
       recommendations r = ["Review error logs for root cause analysis"]) /\
    (~ 0 < error_count c -> 5 < warning_count c ->
       recommendations r = ["Address warning conditions to prevent issues"]) /\
    (0 < error_count c -> 5 < warning_count c ->
       recommendations r = ["Review error logs for root cause analysis";
                            "Address warning conditions to prevent issues"]).
Proof.
  intros Hwf.
  destruct (classify_loop_counts log_data Hwf) as (c & _ & Hloop & _).
  exists c. eexists.
  split; [exact Hloop |]. split; [apply (analyze_of_counters _ _ Hloop) |].
  cbn [recommendations].
  destruct (build_recommendations_cases c) as (R1 & R2 & R3 & R4).
  destruct (Z.lt_ge_cases 0 (error_count c)) as [He | He];
    destruct (Z.lt_ge_cases 5 (warning_count c)) as [Hw | Hw];
    [ rewrite R4 by lia | rewrite R2 by lia | rewrite R3 by lia | rewrite R1 by lia ];
    (split; [discriminate |]); (split; [simpl; lia |]);
    (split; [split; [intros [H | H]; try discriminate H;
                     try (destruct H as [H | H]; try discriminate H; try contradiction);
                     try contradiction; try (split; lia)
                    | intros [? ?]; try lia; now left] |]);
    repeat split; intros; try reflexivity; lia.
Qed.

Lemma recommendations_shape_witness :
  exists r, analyze_logs_simple Samples.mixed = Ok r /\ recommendations r <> [].
Proof.
  destruct (recommendations_shape Samples.mixed eq_refl) as (c & r & _ & Hr & Hne & _).
  exists r. split; [exact Hr | exact Hne].
Defined.

(** C10. The severity is "low" exactly when no issue was found, and any
    other severity comes with exactly one issue. *)
Theorem low_iff_no_issue (log_data : list LogEntry) :
  well_formed log_data = true ->
  exists r,
    analyze_logs_simple log_data = Ok r /\
    (severity r = "low" <-> issues_found r = []) /\
    (severity r <> "low" -> length (issues_found r) = 1%nat).
Proof.
  intros Hwf.
  destruct (classify_loop_counts log_data Hwf) as (c & _ & Hloop & _).
  eexists. split; [apply (analyze_of_counters _ _ Hloop) |].
  cbn [severity issues_found].
  destruct (determine_severity_cases c)
    as (sev & issues & Hd & [[-> ->] | [[-> [i ->]] | [-> [i ->]]]]);
    rewrite Hd; simpl; repeat split; intros; congruence.
Qed.

Lemma low_iff_no_issue_witness :
  exists r, analyze_logs_simple Samples.six_errors = Ok r /\
            length (issues_found r) = 1%nat.
Proof.
  destruct (low_iff_no_issue Samples.six_errors eq_refl) as (r & Hr & _ & Hone).
  exists r. split; [exact Hr |]. apply Hone.
  assert (Hr' : analyze_logs_simple Samples.six_errors =
                Ok (mkAnalysis "high" ["High error count detected: 6 errors"]
                      ["Review error logs for root cause analysis"]
                      "Analyzed 6 logs: 6 errors, 0 warnings")) by reflexivity.
  rewrite Hr in Hr'. injection Hr' as ->. discriminate.
Defined.

(** * The handler *)

Section Handler.

Lemma fetch_group_run s e g all_logs w :
  exists all_logs' t,
    fetch_group s e g all_logs w = (Ok all_logs', t) /\ no_metrics_call t.
Proof.
  unfold fetch_group, call_filter_log_events.
  destruct (filter_log_events w g s e 50) as [response | exn].
  - destruct (append_events g (default [] (events response)) all_logs)
      as [all_logs' [exn |]];
      do 2 eexists; (split; [reflexivity |]); repeat constructor.
  - do 2 eexists. split; [reflexivity |]. repeat constructor.
Qed.

Lemma fetch_groups_run s e groups all_logs w :
  exists all_logs' t,
    fetch_groups s e groups all_logs w = (Ok all_logs', t) /\ no_metrics_call t.
Proof.
  revert all_logs. induction groups as [| g rest IH]; intros all_logs; simpl.
  - do 2 eexists. split; [reflexivity | constructor].
  - unfold mbind, M_bind, bind.
    destruct (fetch_group_run s e g all_logs w) as (l1 & t1 & -> & Q1).
    destruct (IH l1) as (l2 & t2 & -> & Q2).
    do 2 eexists. split; [reflexivity |]. apply Forall_app; now split.
Qed.

(** The fetch never raises and never touches the metrics store. *)
Lemma fetch_recent_logs_run w :
  exists log_data t, fetch_recent_logs w = (Ok log_data, t) /\ no_metrics_call t.
Proof.
  unfold fetch_recent_logs, try_catch, mbind, M_bind, bind, now_ms.
  destruct (fetch_groups_run (clock_ms w - 30 * 60 * 1000) (clock_ms w)
              log_groups [] w) as (l & t & -> & Q).
  do 2 eexists. split; [reflexivity |]. simpl. now rewrite app_nil_r.
Qed.

(** The three ways an invocation can go, by what was fetched. *)
Lemma lambda_handler_run event context w log_data t :
  fetch_recent_logs w = (Ok log_data, t) ->
  lambda_handler event context w =
  match log_data with
  | [] =>
      (Ok (create_response 200 (BodyStr "No recent logs to analyze")),
       EvPrint "Starting log analysis..." :: t
         ++ [EvPrint "No recent logs to analyze"])
  | _ :: _ =>
      match analyze_logs_simple log_data with
      | Raise e =>
          (Ok (create_response 500 (BodyStr ("Error: " +:+ exc_str e))),
           EvPrint "Starting log analysis..." :: t
             ++ [EvPrint ("Found " +:+ fmt_int (len log_data) +:+ " log entries");
                 EvPrint ("Error in lambda_handler: " +:+ exc_str e)])
      | Ok analysis =>
          (Ok (create_response 200
                 (BodyDict [("message", JStr "Log analysis completed");
                            ("logs_analyzed", JInt (len log_data));
                            ("analysis", analysis_json analysis)])),
           EvPrint "Starting log analysis..." :: t
             ++ EvPrint ("Found " +:+ fmt_int (len log_data) +:+ " log entries")
             :: snd (store_metrics analysis w)
             ++ [EvPrint "Analysis completed successfully"])
      end
  end.
Proof.
  intros Hf. unfold lambda_handler, try_catch, mbind, M_bind, bind, print, lift.
  rewrite Hf. destruct log_data as [| log rest].
  - simpl. reflexivity.
  - destruct (analyze_logs_simple (log :: rest)) as [analysis | e].
    + destruct (store_metrics_run analysis w) as (lines & -> & _).
      simpl. reflexivity.
    + simpl. rewrite <- app_assoc. reflexivity.
Qed.

End Handler.

(** C3. When the fetch returns no entry, the handler answers 200 with the
    body "No recent logs to analyze", and the metrics publisher is not run:
    the trace of the invocation holds no [put_metric_data] call, which every
    run of [store_metrics] would have left there. *)
Theorem empty_fetch_short_circuits (event context : pyval) (w : World) :
  fst (fetch_recent_logs w) = Ok [] ->
  exists resp,
    fst (lambda_handler event context w) = Ok resp /\
    statusCode resp = 200 /\
    body resp = "No recent logs to analyze" /\
    Forall (fun ev => is_put_metric_data ev = false)
           (snd (lambda_handler event context w)) /\
    (forall analysis, exists ev,
       In ev (snd (store_metrics analysis w)) /\
       ~ In ev (snd (lambda_handler event context w))).
Proof.
  intros Hempty.
  destruct (fetch_recent_logs_run w) as (log_data & t & Hf & Hq).
  rewrite Hf in Hempty. simpl in Hempty. injection Hempty as ->.
  rewrite (lambda_handler_run event context w [] t Hf).
  assert (Hquiet : Forall (fun ev => is_put_metric_data ev = false)
                     (EvPrint "Starting log analysis..." :: t
                        ++ [EvPrint "No recent logs to analyze"])).
  { constructor; [reflexivity |]. apply Forall_app. split; [exact Hq |].
    repeat constructor. }
  eexists. split; [reflexivity |]. cbn [snd].
  repeat split; try exact Hquiet.
  intros analysis. destruct (store_metrics_run analysis w) as (lines & -> & _).
  eexists. split; [left; reflexivity |]. intros Hin.
  rewrite List.Forall_forall in Hquiet. specialize (Hquiet _ Hin). discriminate.
Qed.

Lemma empty_fetch_short_circuits_witness :
  exists resp,
    fst (lambda_handler PyNone PyNone Worlds.logs_down) = Ok resp /\
    statusCode resp = 200 /\
    body resp = "No recent logs to analyze".
Proof.
  destruct (empty_fetch_short_circuits PyNone PyNone Worlds.logs_down eq_refl)
    as (resp & Hr & Hs & Hb & _).
  exists resp. repeat split; assumption.
Defined.

(** C4, as stated, fails: an exception raised by the metrics store during
    publishing is raised inside the pipeline, outside the Log Source
    Adapter, and the handler still answers 200. *)
Lemma publish_failure_is_not_a_500 :
  ~ (forall (w : World) (e : Exception) (event context : pyval),
       raised_in_analysis w e \/ raised_in_publish w e ->
       exists resp,
         fst (lambda_handler event context w) = Ok resp /\
         statusCode resp = 500 /\
         body resp = "Error: " +:+ exc_str e).
Proof.
  intros H.
  destruct (H Worlds.metrics_down Worlds.access_denied PyNone PyNone)
    as (resp & Hr & Hs & _).
  - right. do 2 eexists. repeat split; try reflexivity. discriminate.
  - vm_compute in Hr. injection Hr as <-. discriminate Hs.
Qed.

(** C4, amended. An exception that neither the guards of the Log Source
    Adapter nor the guard of the Metrics Publisher recover, that is one
    raised by the analysis, is caught by the handler, which answers 500 with
    the body "Error: " followed by the exception's message; and whatever the
    world does, the handler answers and its status is 200 or 500. *)
Theorem unguarded_exception_gives_500
    (w : World) (e : Exception) (event context : pyval) :
  raised_in_analysis w e ->
  fst (lambda_handler event context w) =
    Ok (create_response 500 (BodyStr ("Error: " +:+ exc_str e))) /\
  (exists resp,
     fst (lambda_handler event context w) = Ok resp /\
     statusCode resp = 500 /\ body resp = "Error: " +:+ exc_str e) /\
  (forall w' event' context', exists resp',
     fst (lambda_handler event' context' w') = Ok resp' /\
     (statusCode resp' = 200 \/ statusCode resp' = 500)).
Proof.
  intros (log_data & Hfetch & Hne & Hraise).
  assert (Hrun : fst (lambda_handler event context w) =
                 Ok (create_response 500 (BodyStr ("Error: " +:+ exc_str e)))).
  { destruct (fetch_recent_logs_run w) as (l & t & Hf & _).
    rewrite Hf in Hfetch. simpl in Hfetch. injection Hfetch as ->.
    rewrite (lambda_handler_run event context w log_data t Hf).
    destruct log_data; [contradiction |]. now rewrite Hraise. }
  split; [exact Hrun |]. split.
  - eexists. split; [exact Hrun |]. split; reflexivity.
  - intros w' event' context'.
    destruct (fetch_recent_logs_run w') as (l & t & Hf & _).
    rewrite (lambda_handler_run event' context' w' l t Hf).
    destruct l as [| log rest].
    + eexists. split; [reflexivity |]. now left.
    + destruct (analyze_logs_simple (log :: rest));
        eexists; (split; [reflexivity |]); [now left | now right].
Qed.

Lemma unguarded_exception_gives_500_witness :
  fst (lambda_handler PyNone PyNone Worlds.bad_message) =
    Ok (create_response 500
          (BodyStr "Error: 'int' object has no attribute 'lower'")).
Proof.
  refine (proj1 (unguarded_exception_gives_500 Worlds.bad_message
                   (mkExc "AttributeError" "'int' object has no attribute 'lower'")
                   PyNone PyNone _)).
  eexists. split; [reflexivity | split; [discriminate | reflexivity]].
Defined.

(** * The response envelope *)

Section Envelope.

Lemma length_append (a b : string) :
  String.length (a +:+ b) = (String.length a + String.length b)%nat.
Proof.
  induction a as [| c a IH]; [reflexivity |].
  rewrite append_cons. simpl. now rewrite IH.
Qed.

Lemma escape_char_length c : (1 <= String.length (Json.escape_char c))%nat.
Proof.
  unfold Json.escape_char.
  repeat match goal with
         | |- context [if ?b then _ else _] => destruct b
         end; simpl; lia.
Qed.

Lemma escape_length s : (String.length s <= String.length (Json.escape s))%nat.
Proof.
  induction s as [| c s IH]; simpl; [lia |].
  rewrite length_append. pose proof (escape_char_length c). lia.
Qed.

(** Encoding a string as JSON always changes it: quotes are added. *)
Lemma dumps_str_differs s : s <> Json.dumps_str s.
Proof.
  intros H. apply (f_equal String.length) in H. unfold Json.dumps_str in H.
  rewrite !length_append in H. pose proof (escape_length s).
  simpl in H. lia.
Qed.

End Envelope.

(** * Reading back what [json.dumps] writes *)

Section Decoding.

Lemma append_assoc (a b c : string) : (a +:+ b) +:+ c = a +:+ (b +:+ c).
Proof.
  induction a as [| x a IH]; [reflexivity |].
  rewrite !append_cons. now rewrite IH.
Qed.

(** [json.dumps] writes a list as its items joined by [", "] between
    brackets, and a dictionary as its members joined likewise between
    braces. *)
Lemma dumps_list items :
  Json.dumps (JList items) = "[" +:+ join ", " (map Json.dumps items) +:+ "]".
Proof.
  cbn [Json.dumps]. do 2 f_equal.
  induction items as [| x rest IH]; [reflexivity |].
  destruct rest as [| y rest']; [reflexivity |].
  cbn [map join] in *. now rewrite IH.
Qed.

Lemma dumps_dict fields :
  Json.dumps (JDict fields) =
  "{" +:+ join ", " (map (fun kv => Json.dumps_str (fst kv) +:+ ": " +:+ Json.dumps (snd kv))
                       fields) +:+ "}".
Proof.
  cbn [Json.dumps]. do 2 f_equal.
  induction fields as [| [k v] rest IH]; [reflexivity |].
  destruct rest as [| [k' v'] rest']; [reflexivity |].
  cbn [map join fst snd] in *. rewrite <- IH. now rewrite !append_assoc.
Qed.

(** Every escape written for a character reads back as that character. *)
Lemma read_chars_escape_char c tail :
  Decode.read_chars (Json.escape_char c +:+ tail) =
  Decode.cons_char c (Decode.read_chars tail).
Proof. destruct c as [[|] [|] [|] [|] [|] [|] [|] [|]]; reflexivity. Qed.

Lemma read_chars_escape s rest :
  Decode.read_chars (Json.escape s +:+ Json.quote +:+ rest) = Some (s, rest).
Proof.
  induction s as [| c s IH]; [reflexivity |].
  cbn [Json.escape]. rewrite append_assoc, read_chars_escape_char, IH. reflexivity.
Qed.

Lemma dumps_str_unfold s rest :
  Json.dumps_str s +:+ rest =
  String (ascii_of_nat 34) (Json.escape s +:+ Json.quote +:+ rest).
Proof.
  unfold Json.dumps_str. rewrite !append_assoc. reflexivity.
Qed.

End Decoding.
Section Numbers.

Lemma span_number_safe rest :
  number_safe rest = true -> Decode.span_number rest = (EmptyString, rest).
Proof.
  destruct rest as [| c rest]; [reflexivity |].
  simpl. intros H. apply negb_true_iff in H. now rewrite H.
Qed.

Lemma span_number_uint d rest :
  number_safe rest = true ->
  Decode.span_number (NilEmpty.string_of_uint d +:+ rest) =
  (NilEmpty.string_of_uint d, rest).
Proof.
  intros Hsafe. induction d; cbn [NilEmpty.string_of_uint];
    rewrite ?append_cons; cbn [Decode.span_number];
    try (change (Decode.is_number_char _) with true; cbv iota; rewrite IHd; reflexivity).
  now apply span_number_safe.
Qed.

Lemma to_int_not_nil n : Z.to_int n <> Decimal.Pos Decimal.Nil /\ Z.to_int n <> Decimal.Neg Decimal.Nil.
Proof.
  split; intros H; pose proof (DecimalZ.of_to n) as Hn; rewrite H in Hn;
    cbn in Hn; subst n; discriminate H.
Qed.

Lemma span_number_fmt_int n rest :
  number_safe rest = true ->
  Decode.span_number (fmt_int n +:+ rest) = (fmt_int n, rest).
Proof.
  intros Hsafe. unfold fmt_int, NilZero.string_of_int, NilZero.string_of_uint.
  destruct (to_int_not_nil n) as [Hp Hn].
  destruct (Z.to_int n) as [d | d].
  - destruct d; try congruence; now apply (span_number_uint (_ d)).
  - rewrite append_cons. cbn [Decode.span_number].
    change (Decode.is_number_char "-") with true. cbv iota.
    destruct d; try congruence;
      match goal with
      | |- context [NilEmpty.string_of_uint ?u +:+ rest] =>
          rewrite (span_number_uint u rest Hsafe); reflexivity
      end.
Qed.

Lemma read_number_fmt_int n rest :
  number_safe rest = true ->
  Decode.read_number (fmt_int n +:+ rest) = Some (n, rest).
Proof.
  intros Hsafe. unfold Decode.read_number.
  rewrite (span_number_fmt_int n rest Hsafe).
  destruct (to_int_not_nil n) as [Hp Hn].
  unfold fmt_int. rewrite (NilZero.isi _ Hp Hn). now rewrite DecimalZ.of_to.
Qed.

(** A number starts with a sign or a digit. *)
Lemma fmt_int_head n :
  exists c t, fmt_int n = String c t /\ Decode.is_number_char c = true.
Proof.
  unfold fmt_int, NilZero.string_of_int, NilZero.string_of_uint.
  destruct (to_int_not_nil n) as [Hp Hn].
  destruct (Z.to_int n) as [d | d].
  - destruct d; try congruence; do 2 eexists; (split; [reflexivity | reflexivity]).
  - do 2 eexists. split; reflexivity.
Qed.

End Numbers.
Section RoundTrip.

Lemma value_start_facts c :
  value_start c = true ->
  Decode.is_ws c = false /\
  (nat_of_ascii c =? 93)%nat = false /\ (nat_of_ascii c =? 125)%nat = false.
Proof.
  destruct c as [[|] [|] [|] [|] [|] [|] [|] [|]]; intros H;
    try discriminate H; repeat split; reflexivity.
Qed.

Lemma number_char_facts c :
  Decode.is_number_char c = true ->
  Decode.is_ws c = false /\
  (nat_of_ascii c =? 34)%nat = false /\ (nat_of_ascii c =? 91)%nat = false /\
  (nat_of_ascii c =? 123)%nat = false.
Proof.
  destruct c as [[|] [|] [|] [|] [|] [|] [|] [|]]; intros H;
    try discriminate H; repeat split; reflexivity.
Qed.

Lemma dumps_head j :
  exists c t, Json.dumps j = String c t /\ value_start c = true.
Proof.
  destruct j as [s | n | items | fields].
  - do 2 eexists. split; [reflexivity | reflexivity].
  - destruct (fmt_int_head n) as (c & t & Hc & Hn).
    exists c, t. split; [exact Hc |]. unfold value_start. rewrite Hn.
    now rewrite !orb_true_r.
  - rewrite dumps_list. do 2 eexists. split; reflexivity.
  - rewrite dumps_dict. do 2 eexists. split; reflexivity.
Qed.

Lemma join_head (x : json) (rest : list json) :
  exists c t, join ", " (map Json.dumps (x :: rest)) = String c t /\ value_start c = true.
Proof.
  destruct (dumps_head x) as (c & t & Hx & Hc).
  cbn [map join]. destruct (map Json.dumps rest); rewrite Hx.
  - now exists c, t.
  - rewrite append_cons. now do 2 eexists.
Qed.

(** The reader looks at its input past the leading white space only. *)
Lemma read_value_space fuel s :
  Decode.read_value fuel (String " " s) = Decode.read_value fuel s.
Proof. destruct fuel; reflexivity. Qed.

Lemma read_items_space fuel s :
  Decode.read_items fuel (String " " s) = Decode.read_items fuel s.
Proof.
  destruct fuel; [reflexivity |]. cbn [Decode.read_items].
  now rewrite read_value_space.
Qed.

Lemma read_members_space fuel s :
  Decode.read_members fuel (String " " s) = Decode.read_members fuel s.
Proof. destruct fuel; reflexivity. Qed.

Lemma read_items_join (items : list json) :
  items <> [] -> Forall reads_back items ->
  forall fuel rest,
    (list_sum (map (fun x => S (json_size x)) items) <= fuel)%nat ->
    Decode.read_items fuel (join ", " (map Json.dumps items) +:+ "]" +:+ rest) =
    Some (items, rest).
Proof.
  induction items as [| x items IH]; [congruence |].
  intros _ HF fuel rest Hfuel.
  inversion HF as [| ? ? Hx Hitems]; subst.
  cbn [map list_sum fold_right] in Hfuel.
  destruct fuel as [| f]; [lia |].
  destruct items as [| y items].
  - cbn [map join Decode.read_items].
    rewrite (Hx f ("]" +:+ rest)) by (reflexivity || lia).
    reflexivity.
  - change (join ", " (map Json.dumps (x :: y :: items)))
      with (Json.dumps x +:+ ", " +:+ join ", " (map Json.dumps (y :: items))).
    rewrite !append_assoc. cbn [Decode.read_items].
    rewrite (Hx f) by (reflexivity || lia).
    change (", " +:+ ?t) with (String "," (String " " t)).
    cbn [Decode.skip_ws]. change (Decode.is_ws ",") with false. cbv iota.
    change (nat_of_ascii "," =? 44)%nat with true. cbv iota.
    rewrite read_items_space.
    rewrite (IH ltac:(discriminate) Hitems f rest) by (cbn [map list_sum fold_right] in *; lia).
    reflexivity.
Qed.

Lemma read_members_join (fields : list (string * json)) :
  fields <> [] -> Forall (fun kv => reads_back (snd kv)) fields ->
  forall fuel rest,
    (list_sum (map (fun kv => S (json_size (snd kv))) fields) <= fuel)%nat ->
    Decode.read_members fuel
      (join ", " (map (fun kv => Json.dumps_str (fst kv) +:+ ": " +:+ Json.dumps (snd kv))
                    fields) +:+ "}" +:+ rest) =
    Some (fields, rest).
Proof.
  induction fields as [| [k v] fields IH]; [congruence |].
  intros _ HF fuel rest Hfuel.
  inversion HF as [| ? ? Hv Hfields]; subst. cbn [snd] in Hv.
  cbn [map list_sum fold_right snd] in Hfuel.
  destruct fuel as [| f]; [lia |].
  destruct fields as [| [k' v'] fields].
  - cbn [map join fst snd]. rewrite !append_assoc, dumps_str_unfold.
    cbn [Decode.read_members Decode.skip_ws].
    change (Decode.is_ws (ascii_of_nat 34)) with false. cbv iota.
    change (nat_of_ascii (ascii_of_nat 34) =? 34)%nat with true. cbv iota.
    rewrite read_chars_escape.
    change (": " +:+ ?t) with (String ":" (String " " t)).
    cbn [Decode.skip_ws]. change (Decode.is_ws ":") with false. cbv iota.
    change (nat_of_ascii ":" =? 58)%nat with true. cbv iota.
    rewrite read_value_space.
    rewrite (Hv f ("}" +:+ rest)) by (reflexivity || lia).
    reflexivity.
  - change (join ", " (map ?g ((k, v) :: (k', v') :: fields)))
      with (g (k, v) +:+ ", " +:+ join ", " (map g ((k', v') :: fields))).
    cbn [fst snd]. rewrite !append_assoc, dumps_str_unfold.
    cbn [Decode.read_members Decode.skip_ws].
    change (Decode.is_ws (ascii_of_nat 34)) with false. cbv iota.
    change (nat_of_ascii (ascii_of_nat 34) =? 34)%nat with true. cbv iota.
    rewrite read_chars_escape.
    change (": " +:+ ?t) with (String ":" (String " " t)).
    cbn [Decode.skip_ws]. change (Decode.is_ws ":") with false. cbv iota.
    change (nat_of_ascii ":" =? 58)%nat with true. cbv iota.
    rewrite read_value_space.
    rewrite (Hv f) by (reflexivity || lia).
    change (", " +:+ ?t) with (String "," (String " " t)).
    cbn [Decode.skip_ws]. change (Decode.is_ws ",") with false. cbv iota.
    change (nat_of_ascii "," =? 44)%nat with true. cbv iota.
    rewrite read_members_space.
    rewrite (IH ltac:(discriminate) Hfields f rest) by (cbn [map list_sum fold_right snd] in *; lia).
    reflexivity.
Qed.

(** Induction over JSON values, with the property at hand for every
    element of a list and every value of a dictionary. *)
Lemma json_nested_ind (P : json -> Prop) :
  (forall s, P (JStr s)) ->
  (forall n, P (JInt n)) ->
  (forall items, Forall P items -> P (JList items)) ->
  (forall fields, Forall (fun kv => P (snd kv)) fields -> P (JDict fields)) ->
  forall j, P j.
Proof.
  intros Hs Hn Hl Hd. fix IH 1. intros [s | n | items | fields].
  - apply Hs.
  - apply Hn.
  - apply Hl. induction items as [| x items IHi]; constructor; [apply IH | exact IHi].
  - apply Hd. induction fields as [| [k v] fields IHf]; constructor;
      [apply IH | exact IHf].
Qed.

Lemma dumps_reads_back : forall j, reads_back j.
Proof.
  apply json_nested_ind; unfold reads_back.
  - intros s fuel rest Hfuel _. destruct fuel as [| f]; [simpl in Hfuel; lia |].
    cbn [Json.dumps]. rewrite dumps_str_unfold.
    cbn [Decode.read_value Decode.skip_ws].
    change (Decode.is_ws (ascii_of_nat 34)) with false. cbv iota.
    change (nat_of_ascii (ascii_of_nat 34) =? 34)%nat with true. cbv iota.
    now rewrite read_chars_escape.
  - intros n fuel rest Hfuel Hsafe. destruct fuel as [| f]; [simpl in Hfuel; lia |].
    cbn [Json.dumps].
    pose proof (read_number_fmt_int n rest Hsafe) as Hnum.
    destruct (fmt_int_head n) as (c & t & Hc & Hn).
    destruct (number_char_facts c Hn) as (Hws & H34 & H91 & H123).
    rewrite Hc in *. rewrite append_cons in *.
    cbn [Decode.read_value Decode.skip_ws]. rewrite Hws, H34, H91, H123.
    now rewrite Hnum.
  - intros items HF fuel rest Hfuel _. destruct fuel as [| f]; [simpl in Hfuel; lia |].
    cbn [json_size] in Hfuel. rewrite dumps_list, !append_assoc.
    change ("[" +:+ ?t) with (String "[" t).
    cbn [Decode.read_value Decode.skip_ws].
    change (Decode.is_ws "[") with false. cbv iota.
    change (nat_of_ascii "[" =? 34)%nat with false.
    change (nat_of_ascii "[" =? 91)%nat with true. cbv iota.
    destruct items as [| x items]; [reflexivity |].
    pose proof (read_items_join (x :: items) ltac:(discriminate) HF f rest
                  ltac:(lia)) as Hread.
    destruct (join_head x items) as (c & t & Hj & Hc).
    destruct (value_start_facts c Hc) as (Hws & H93 & _).
    rewrite Hj in *. rewrite append_cons in *.
    cbn [Decode.skip_ws]. rewrite Hws, H93. now rewrite Hread.
  - intros fields HF fuel rest Hfuel _. destruct fuel as [| f]; [simpl in Hfuel; lia |].
    cbn [json_size] in Hfuel. rewrite dumps_dict, !append_assoc.
    change ("{" +:+ ?t) with (String "{" t).
    cbn [Decode.read_value Decode.skip_ws].
    change (Decode.is_ws "{") with false. cbv iota.
    change (nat_of_ascii "{" =? 34)%nat with false.
    change (nat_of_ascii "{" =? 91)%nat with false.
    change (nat_of_ascii "{" =? 123)%nat with true. cbv iota.
    destruct fields as [| [k v] fields]; [reflexivity |].
    pose proof (read_members_join ((k, v) :: fields) ltac:(discriminate) HF f rest
                  ltac:(lia)) as Hread.
    revert Hread.
    change (join ", " (map ?g ((k, v) :: fields)))
      with (match map g fields with
            | [] => g (k, v)
            | _ :: _ => g (k, v) +:+ ", " +:+ join ", " (map g fields)
            end).
    cbn [fst snd].
    destruct (map _ fields); rewrite ?append_assoc, dumps_str_unfold;
      intros Hread; cbn [Decode.skip_ws];
      change (Decode.is_ws (ascii_of_nat 34)) with false; cbv iota;
      change (nat_of_ascii (ascii_of_nat 34) =? 125)%nat with false; cbv iota;
      now rewrite Hread.
Qed.

End RoundTrip.
Section Loads.

Lemma append_empty_r (s : string) : s +:+ EmptyString = s.
Proof.
  induction s as [| c s IH]; [reflexivity |]. rewrite append_cons. now rewrite IH.
Qed.

Lemma join_size_bound {A} (size : A -> nat) (text : A -> string) (l : list A) :
  Forall (fun x => (size x <= String.length (text x))%nat) l ->
  (list_sum (map (fun x => S (size x)) l)
   <= S (String.length (join ", " (map text l))))%nat.
Proof.
  induction 1 as [| x l Hx _ IH]; [simpl; lia |].
  cbn [map list_sum fold_right] in *. destruct l as [| y l].
  - cbn [map join list_sum fold_right]. lia.
  - unfold list_sum in *. cbn [map join fold_right] in *.
    rewrite !length_append. cbn [String.length]. lia.
Qed.

(** The text is at least as long as the value is large, so the length of
    the text is fuel enough. *)
Lemma json_size_le_length : forall j, (json_size j <= String.length (Json.dumps j))%nat.
Proof.
  apply json_nested_ind.
  - intros s. cbn [json_size Json.dumps]. unfold Json.dumps_str.
    rewrite !length_append. cbn [String.length Json.quote]. lia.
  - intros n. cbn [json_size Json.dumps].
    destruct (fmt_int_head n) as (c & t & -> & _). cbn [String.length]. lia.
  - intros items HF. rewrite dumps_list, !length_append. cbn [json_size String.length].
    pose proof (join_size_bound json_size Json.dumps items HF). lia.
  - intros fields HF. rewrite dumps_dict, !length_append. cbn [json_size String.length].
    pose proof (join_size_bound (fun kv => json_size (snd kv))
                  (fun kv => Json.dumps_str (fst kv) +:+ ": " +:+ Json.dumps (snd kv))
                  fields) as Hb.
    assert (Hm : Forall (fun kv : string * json =>
                (json_size (snd kv)
                 <= String.length (Json.dumps_str (fst kv) +:+ ": " +:+ Json.dumps (snd kv)))%nat)
              fields).
    { eapply List.Forall_impl; [| exact HF]. intros [k v] Hv. cbn [fst snd] in *.
      rewrite !length_append. lia. }
    specialize (Hb Hm). lia.
Qed.

(** Reading the text written for a value gives the value back. *)
Lemma loads_dumps j : Decode.loads (Json.dumps j) = Some j.
Proof.
  unfold Decode.loads.
  pose proof (dumps_reads_back j (S (String.length (Json.dumps j))) EmptyString) as H.
  rewrite append_empty_r in H.
  rewrite H; [reflexivity | | reflexivity].
  pose proof (json_size_le_length j). lia.
Qed.

End Loads.

(** C5. The envelope carries the status code it was given and the two fixed
    headers and no other; a dictionary body is serialised by [json.dumps]
    to a JSON text, one that reads back as that dictionary; and a string
    body is passed through as it is, not encoded a second time. *)
Theorem create_response_envelope (status_code : Z) (b : Body) :
  statusCode (create_response status_code b) = status_code /\
  headers (create_response status_code b) !! "Content-Type"
    = Some "application/json" /\
  headers (create_response status_code b) !! "Access-Control-Allow-Origin"
    = Some "*" /\
  (forall k, k <> "Content-Type" -> k <> "Access-Control-Allow-Origin" ->
     headers (create_response status_code b) !! k = None) /\
  match b with
  | BodyDict fields =>
      body (create_response status_code b) = Json.dumps (JDict fields) /\
      Decode.loads (body (create_response status_code b)) = Some (JDict fields)
  | BodyStr s =>
      body (create_response status_code b) = s /\
      body (create_response status_code b) <> Json.dumps (JStr s)
  end.
Proof.
  split; [reflexivity |]. split; [reflexivity |]. split; [reflexivity |]. split.
  - intros k H1 H2. unfold create_response. cbn [headers].
    rewrite lookup_insert_ne by congruence.
    rewrite lookup_singleton_ne by congruence. reflexivity.
  - destruct b as [s | fields].
    + split; [reflexivity |]. apply dumps_str_differs.
    + split; [reflexivity |]. cbn [create_response body].
      apply (loads_dumps (JDict fields)).
Qed.

Lemma create_response_envelope_witness :
  body (create_response 200 (BodyDict six_errors_answer)) =
    dq ("{'message': 'Log analysis completed', 'logs_analyzed': 6, 'analysis': "
        +:+ "{'severity': 'high', "
        +:+ "'issues_found': ['High error count detected: 6 errors'], "
        +:+ "'recommendations': ['Review error logs for root cause analysis'], "
        +:+ "'summary': 'Analyzed 6 logs: 6 errors, 0 warnings'}}") /\
  Decode.loads (body (create_response 200 (BodyDict six_errors_answer))) =
    Some (JDict six_errors_answer).
Proof.
  destruct (create_response_envelope 200 (BodyDict six_errors_answer))
    as (_ & _ & _ & _ & Hbody & Hloads).
  split; [rewrite Hbody; reflexivity | exact Hloads].
Defined.

(** * More on the fetch *)

Section Fetch.

(** [l[-30:]] is [l] itself up to 30 elements, and its last 30 beyond. *)
Lemma last30_suffix {A} (l : list A) :
  exists dropped,
    l = dropped ++ last30 l /\
    length (last30 l) = Nat.min 30 (length l) /\
    length dropped = (length l - 30)%nat.
Proof.
  exists (firstn (length l - 30) l). unfold last30.
  split; [symmetry; apply firstn_skipn |].
  split; [rewrite length_skipn; lia |].
  rewrite length_firstn. lia.
Qed.

Lemma has_keys_true event :
  has_keys event = true ->
  exists ts msg, getitem event "timestamp" = Ok ts /\ getitem event "message" = Ok msg /\
                 event !! "timestamp" = Some ts /\ event !! "message" = Some msg.
Proof.
  unfold has_keys, getitem.
  destruct (event !! "timestamp") as [ts |]; [| discriminate].
  destruct (event !! "message") as [msg |]; [| discriminate].
  intros _. now exists ts, msg.
Qed.

(** Events that have both keys are all appended, in order, after what was
    collected so far. *)
Lemma append_events_good g evs all_logs :
  forallb has_keys evs = true ->
  exists news,
    append_events g evs all_logs = (all_logs ++ news, None) /\
    Forall2 (entry_of g) evs news.
Proof.
  revert all_logs. induction evs as [| event rest IH]; intros all_logs Hk.
  - exists []. split; [simpl; now rewrite app_nil_r | constructor].
  - simpl in Hk. apply andb_true_iff in Hk as [Hev Hrest].
    destruct (has_keys_true event Hev) as (ts & msg & Hts & Hmsg & Lts & Lmsg).
    destruct (IH (all_logs ++ [mkLogEntry ts msg g]) Hrest) as (news & Happ & HF).
    exists (mkLogEntry ts msg g :: news). simpl. rewrite Hts, Hmsg, Happ.
    split; [now rewrite <- app_assoc |].
    constructor; [| exact HF]. now repeat split.
Qed.

Lemma append_events_app g evs1 evs2 all_logs :
  forallb has_keys evs1 = true ->
  append_events g (evs1 ++ evs2) all_logs =
  append_events g evs2 (fst (append_events g evs1 all_logs)).
Proof.
  revert all_logs. induction evs1 as [| event rest IH]; intros all_logs Hk.
  - reflexivity.
  - simpl in Hk. apply andb_true_iff in Hk as [Hev Hrest].
    destruct (has_keys_true event Hev) as (ts & msg & Hts & Hmsg & _).
    simpl. rewrite Hts, Hmsg. now apply IH.
Qed.

Lemma append_events_bad g bad rest all_logs :
  has_keys bad = false ->
  append_events g (bad :: rest) all_logs = (all_logs, Some (missing_key_error bad)).
Proof.
  unfold has_keys, missing_key_error. simpl. unfold getitem.
  destruct (bad !! "timestamp"); [| reflexivity].
  destruct (bad !! "message"); [discriminate | reflexivity].
Qed.

(** Whatever the events, what was collected before stays, and every entry
    added carries the name of the stream. *)
Lemma append_events_extends g evs all_logs :
  exists news,
    fst (append_events g evs all_logs) = all_logs ++ news /\
    Forall (fun log => log_group log = g) news /\
    (length news <= length evs)%nat.
Proof.
  revert all_logs. induction evs as [| event rest IH]; intros all_logs.
  - exists []. simpl. rewrite app_nil_r. repeat split; [constructor | lia].
  - simpl. destruct (getitem event "timestamp") as [ts | e].
    + destruct (getitem event "message") as [msg | e].
      * destruct (IH (all_logs ++ [mkLogEntry ts msg g])) as (news & Hn & HF & Hlen).
        exists (mkLogEntry ts msg g :: news). rewrite Hn, <- app_assoc.
        repeat split; [constructor; [reflexivity | exact HF] | simpl; lia].
      * exists []. simpl. rewrite app_nil_r. repeat split; [constructor | lia].
    + exists []. simpl. rewrite app_nil_r. repeat split; [constructor | lia].
Qed.

Lemma fetch_group_extends s e g all_logs w :
  exists news t,
    fetch_group s e g all_logs w = (Ok (all_logs ++ news), t) /\
    Forall (fun log => log_group log = g) news.
Proof.
  unfold fetch_group, call_filter_log_events.
  destruct (filter_log_events w g s e 50) as [response | exn].
  - destruct (append_events_extends g (default [] (events response)) all_logs)
      as (news & Hn & HF & _).
    destruct (append_events g (default [] (events response)) all_logs)
      as [all_logs' [exn |]]; simpl in Hn; subst all_logs';
      do 2 eexists; (split; [reflexivity | exact HF]).
  - exists []. eexists. rewrite app_nil_r. split; [reflexivity | constructor].
Qed.

Lemma Forall_last30 {A} (P : A -> Prop) (l : list A) : Forall P l -> Forall P (last30 l).
Proof.
  intros H. destruct (last30_suffix l) as (dropped & Hl & _).
  rewrite Hl in H. now apply Forall_app in H as [_ H].
Qed.

(** The fetch, spelled out on the answer of the log store. *)
Lemma fetch_recent_logs_cases (w : World) :
  fetch_recent_logs w =
  let g := "/aws/lambda/ai-infra-monitor" in
  let s := clock_ms w - 30 * 60 * 1000 in
  let e := clock_ms w in
  match filter_log_events w g s e 50 with
  | Raise exn =>
      (Ok [], [EvFilterLogEvents g s e 50;
               EvPrint ("Could not fetch logs from " +:+ g +:+ ": " +:+ exc_str exn)])
  | Ok response =>
      match append_events g (default [] (events response)) [] with
      | (all_logs, None) => (Ok (last30 all_logs), [EvFilterLogEvents g s e 50])
      | (all_logs, Some exn) =>
          (Ok (last30 all_logs),
           [EvFilterLogEvents g s e 50;
            EvPrint ("Could not fetch logs from " +:+ g +:+ ": " +:+ exc_str exn)])
      end
  end.
Proof.
  unfold fetch_recent_logs, try_catch, mbind, M_bind, bind, now_ms, log_groups.
  cbn [fetch_groups]. unfold mbind, M_bind, bind, mret, M_ret, ret.
  unfold fetch_group, call_filter_log_events. cbv zeta.
  destruct (filter_log_events w _ _ _ 50) as [response | exn]; [| reflexivity].
  destruct (append_events _ _ _) as [l [exn |]]; reflexivity.
Qed.

(** The calls made during a fetch: one to the log store, none to the
    metrics store. *)
Lemma fetch_recent_logs_calls (w : World) :
  exists log_data t,
    fetch_recent_logs w = (Ok log_data, t) /\
    count_filter_log_events t = 1%nat /\
    count_put_metric_data t = 0%nat.
Proof.
  rewrite fetch_recent_logs_cases. cbv zeta.
  destruct (filter_log_events w _ _ _ 50) as [response | exn].
  - destruct (append_events _ _ _) as [l [exn |]];
      do 2 eexists; (split; [reflexivity |]); split; reflexivity.
  - do 2 eexists. split; [reflexivity |]. split; reflexivity.
Qed.

End Fetch.

(** X1. The slice [all_logs[-30:]] drops from the front only: the list is
    what was dropped followed by the slice, the slice has 30 elements or the
    whole list when it is shorter, and nothing is dropped up to 30. *)
Theorem last30_keeps_the_most_recent (l : list LogEntry) :
  exists dropped,
    l = dropped ++ last30 l /\
    length (last30 l) = Nat.min 30 (length l) /\
    length dropped = (length l - 30)%nat /\
    ((length l <= 30)%nat -> last30 l = l).
Proof.
  destruct (last30_suffix l) as (dropped & Hl & Hlen & Hd).
  exists dropped. repeat split; try assumption.
  intros Hle. destruct dropped; [exact (eq_sym Hl) | simpl in Hd; lia].
Qed.

(** X2. Over several streams, a stream never makes the loop lose what
    earlier streams contributed, and the loop never raises: the list it
    returns starts with the list it was given. *)
Theorem fetch_groups_keeps_collected
    (s e : Z) (groups : list string) (all_logs : list LogEntry) (w : World) :
  exists more t,
    fetch_groups s e groups all_logs w = (Ok (all_logs ++ more), t) /\
    Forall (fun log => In (log_group log) groups) more.
Proof.
  revert all_logs. induction groups as [| g rest IH]; intros all_logs; simpl.
  - exists [], []. rewrite app_nil_r. split; [reflexivity | constructor].
  - unfold mbind, M_bind, bind.
    destruct (fetch_group_extends s e g all_logs w) as (news & t1 & -> & HF1).
    destruct (IH (all_logs ++ news)) as (more & t2 & -> & HF2).
    exists (news ++ more). eexists. rewrite <- app_assoc.
    split; [reflexivity |]. apply Forall_app. split.
    + eapply List.Forall_impl; [| exact HF1]. intros log <-. now left.
    + eapply List.Forall_impl; [| exact HF2]. intros log H. now right.
Qed.

(** X3. Whatever the log store does, the fetch returns (it never raises),
    with at most 30 entries, each tagged with the one configured stream,
    and the log store was called exactly once, on that stream with limit
    50, and the metrics store not at all. *)
Theorem fetch_recent_logs_bounded (w : World) :
  exists log_data t,
    fetch_recent_logs w = (Ok log_data, t) /\
    (length log_data <= 30)%nat /\
    Forall (fun log => log_group log = "/aws/lambda/ai-infra-monitor") log_data /\
    count_filter_log_events t = 1%nat /\
    count_put_metric_data t = 0%nat /\
    exists s e rest, t = EvFilterLogEvents "/aws/lambda/ai-infra-monitor" s e 50 :: rest.
Proof.
  rewrite fetch_recent_logs_cases. cbv zeta.
  destruct (filter_log_events w _ _ _ 50) as [response | exn].
  - destruct (append_events_extends "/aws/lambda/ai-infra-monitor"
                (default [] (events response)) []) as (news & Hn & HF & _).
    destruct (append_events _ _ _) as [l [exn |]]; simpl in Hn; subst l;
      do 2 eexists; (split; [reflexivity |]);
      (split; [destruct (last30_suffix news) as (_ & _ & Hlen & _); rewrite Hlen; lia |]);
      (split; [now apply Forall_last30 |]);
      (split; [reflexivity |]); (split; [reflexivity |]); now do 3 eexists.
  - do 2 eexists. split; [reflexivity |].
    split; [simpl; lia |]. split; [constructor |].
    split; [reflexivity |]. split; [reflexivity |]. now do 3 eexists.
Qed.


(** X4. When the log store raises, the failure is logged and the invocation
    goes on as if there were no logs: the handler answers 200 with the body
    "No recent logs to analyze", having printed the failure and called the
    metrics store not at all. *)
Theorem log_store_outage_reads_as_no_logs
    (w : World) (exn : Exception) (event context : pyval) :
  filter_log_events w "/aws/lambda/ai-infra-monitor"
    (clock_ms w - 30 * 60 * 1000) (clock_ms w) 50 = Raise exn ->
  lambda_handler event context w =
  (Ok (create_response 200 (BodyStr "No recent logs to analyze")),
   [EvPrint "Starting log analysis...";
    EvFilterLogEvents "/aws/lambda/ai-infra-monitor"
      (clock_ms w - 30 * 60 * 1000) (clock_ms w) 50;
    EvPrint ("Could not fetch logs from /aws/lambda/ai-infra-monitor: "
             +:+ exc_str exn);
    EvPrint "No recent logs to analyze"]).
Proof.
  intros Hraise.
  pose proof (fetch_recent_logs_cases w) as Hf. cbv zeta in Hf.
  rewrite Hraise in Hf.
  rewrite (lambda_handler_run event context w _ _ Hf). reflexivity.
Qed.

Lemma log_store_outage_reads_as_no_logs_witness :
  fst (lambda_handler PyNone PyNone Worlds.logs_down) =
  Ok (create_response 200 (BodyStr "No recent logs to analyze")).
Proof.
  rewrite (log_store_outage_reads_as_no_logs Worlds.logs_down Worlds.access_denied
             PyNone PyNone eq_refl).
  reflexivity.
Defined.

(** X5. When every event handed back has a timestamp and a message, the
    fetch returns the entries built from the last 30 events, in the order
    received, and prints nothing; a response without an ['events'] key
    counts as one with no event. *)
Theorem fetch_returns_last_30_events (w : World) (response : FilterResponse) :
  filter_log_events w "/aws/lambda/ai-infra-monitor"
    (clock_ms w - 30 * 60 * 1000) (clock_ms w) 50 = Ok response ->
  forallb has_keys (default [] (events response)) = true ->
  exists entries,
    Forall2 (entry_of "/aws/lambda/ai-infra-monitor")
            (default [] (events response)) entries /\
    fetch_recent_logs w =
    (Ok (last30 entries),
     [EvFilterLogEvents "/aws/lambda/ai-infra-monitor"
        (clock_ms w - 30 * 60 * 1000) (clock_ms w) 50]).
Proof.
  intros Hresp Hkeys.
  destruct (append_events_good "/aws/lambda/ai-infra-monitor" _ [] Hkeys)
    as (entries & Happ & HF).
  exists entries. split; [exact HF |].
  rewrite fetch_recent_logs_cases. cbv zeta. rewrite Hresp, Happ. reflexivity.
Qed.

Lemma fetch_returns_last_30_events_witness :
  exists entries,
    fst (fetch_recent_logs MoreWorlds.busy) = Ok (last30 entries) /\
    length entries = 35%nat.
Proof.
  destruct (fetch_returns_last_30_events MoreWorlds.busy
              (mkFilterResponse (Some MoreWorlds.busy_events)) eq_refl eq_refl)
    as (entries & HF & Hfetch).
  exists entries. split; [now rewrite Hfetch |].
  apply Forall2_length in HF. rewrite <- HF. reflexivity.
Defined.

(** X6. An event that lacks a key ends the loop over the events: the
    entries built from the events before it are kept, the events after it
    are never looked at, and the [KeyError] is printed, not raised. *)
Theorem malformed_event_truncates_the_stream
    (w : World) (response : FilterResponse)
    (good rest : list (gmap string pyval)) (bad : gmap string pyval) :
  filter_log_events w "/aws/lambda/ai-infra-monitor"
    (clock_ms w - 30 * 60 * 1000) (clock_ms w) 50 = Ok response ->
  default [] (events response) = good ++ bad :: rest ->
  forallb has_keys good = true ->
  has_keys bad = false ->
  exists entries,
    Forall2 (entry_of "/aws/lambda/ai-infra-monitor") good entries /\
    fetch_recent_logs w =
    (Ok (last30 entries),
     [EvFilterLogEvents "/aws/lambda/ai-infra-monitor"
        (clock_ms w - 30 * 60 * 1000) (clock_ms w) 50;
      EvPrint ("Could not fetch logs from /aws/lambda/ai-infra-monitor: "
               +:+ exc_str (missing_key_error bad))]).
Proof.
  intros Hresp Hevs Hgood Hbad.
  destruct (append_events_good "/aws/lambda/ai-infra-monitor" good [] Hgood)
    as (entries & Happ & HF).
  exists entries. split; [exact HF |].
  rewrite fetch_recent_logs_cases. cbv zeta. rewrite Hresp, Hevs.
  rewrite (append_events_app _ _ _ _ Hgood), Happ. cbn [fst].
  rewrite (append_events_bad _ _ _ _ Hbad). reflexivity.
Qed.

Lemma malformed_event_truncates_the_stream_witness :
  exists entries,
    fst (fetch_recent_logs MoreWorlds.broken) = Ok (last30 entries) /\
    length entries = 2%nat.
Proof.
  destruct (malformed_event_truncates_the_stream MoreWorlds.broken
              (mkFilterResponse (Some MoreWorlds.broken_events))
              [Worlds.log_event 1 (PyStr "Error: disk full");
               Worlds.log_event 2 (PyStr "warn: slow")]
              [Worlds.log_event 4 (PyStr "never seen")]
              {[ "timestamp" := PyInt 3 ]}
              eq_refl eq_refl eq_refl eq_refl)
    as (entries & HF & Hfetch).
  exists entries. split; [now rewrite Hfetch |].
  apply Forall2_length in HF. now rewrite <- HF.
Defined.

(** * More on the analysis *)

Section Scan.

Lemma classify_entry_not_str c log :
  (forall s, message log <> PyStr s) ->
  classify_entry c log =
  Raise (mkExc "AttributeError"
           ("'" +:+ type_name (message log) +:+ "' object has no attribute 'lower'")).
Proof.
  intros H. unfold classify_entry.
  destruct (message log) as [s | n |]; [now destruct (H s) | reflexivity | reflexivity].
Qed.

Lemma well_formed_false_split log_data :
  well_formed log_data = false ->
  exists pre bad post,
    log_data = pre ++ bad :: post /\ well_formed pre = true /\
    (forall s, message bad <> PyStr s).
Proof.
  induction log_data as [| log rest IH]; [discriminate |].
  unfold well_formed. simpl. fold (well_formed rest).
  destruct (message log) as [s | n |] eqn:Hm; simpl.
  - intros H. destruct (IH H) as (pre & bad & post & -> & Hpre & Hbad).
    exists (log :: pre), bad, post. repeat split; [| exact Hbad].
    unfold well_formed. simpl. now rewrite Hm.
  - intros _. exists [], log, rest. repeat split. intros s. now rewrite Hm.
  - intros _. exists [], log, rest. repeat split. intros s. now rewrite Hm.
Qed.

(** Two adjacent well-formed entries can be scanned in either order. *)
Lemma classify_entry_swap c x y mx my :
  message x = PyStr mx -> message y = PyStr my ->
  match classify_entry c x with Ok c' => classify_entry c' y | Raise e => Raise e end =
  match classify_entry c y with Ok c' => classify_entry c' x | Raise e => Raise e end.
Proof.
  intros Hx Hy. unfold classify_entry. rewrite Hx, Hy. cbn [py_lower].
  destruct (any_word_in error_words (lower mx));
    destruct (any_word_in error_words (lower my));
    destruct (any_word_in warning_words (lower mx));
    destruct (any_word_in warning_words (lower my));
    cbn [error_count warning_count]; reflexivity.
Qed.

Lemma well_formed_perm l1 l2 :
  Permutation l1 l2 -> well_formed l1 = well_formed l2.
Proof.
  unfold well_formed. induction 1; simpl.
  - reflexivity.
  - now rewrite IHPermutation.
  - rewrite !andb_assoc. f_equal. apply andb_comm.
  - congruence.
Qed.

Lemma classify_loop_perm l1 l2 :
  Permutation l1 l2 -> well_formed l1 = true ->
  forall c, classify_loop c l1 = classify_loop c l2.
Proof.
  induction 1 as [| x l l' HP IH | x y l | l l' l'' HP1 IH1 HP2 IH2]; intros Hwf c.
  - reflexivity.
  - apply well_formed_cons in Hwf as [_ Hl]. simpl.
    destruct (classify_entry c x); [now apply IH | reflexivity].
  - apply well_formed_cons in Hwf as [[my Hy] Hwf].
    apply well_formed_cons in Hwf as [[mx Hx] _].
    simpl. pose proof (classify_entry_swap c x y mx my Hx Hy) as Hswap.
    destruct (classify_entry c y) as [cy | ey];
      destruct (classify_entry c x) as [cx | ex].
    + destruct (classify_entry cy x) as [cyx | e1];
        destruct (classify_entry cx y) as [cxy | e2];
        try discriminate; congruence.
    + unfold classify_entry in *. rewrite Hx in *. cbn [py_lower] in *.
      destruct (any_word_in error_words (lower mx)); [discriminate |].
      destruct (any_word_in warning_words (lower mx)); discriminate.
    + unfold classify_entry in *. rewrite Hy in *. cbn [py_lower] in *.
      destruct (any_word_in error_words (lower my)); [discriminate |].
      destruct (any_word_in warning_words (lower my)); discriminate.
    + congruence.
  - rewrite IH1 by assumption. apply IH2.
    now rewrite <- (well_formed_perm _ _ HP1).
Qed.

(** The loop returns only on inputs whose messages are all strings. *)
Lemma classify_loop_raises_of_malformed log_data :
  well_formed log_data = false ->
  exists e, classify_loop (mkCounters 0 0) log_data = Raise e.
Proof.
  intros Hwf.
  destruct (well_formed_false_split log_data Hwf)
    as (pre & bad & post & -> & Hpre & Hbad).
  destruct (classify_loop_counts pre Hpre) as (c & _ & Hc & _).
  eexists. rewrite classify_loop_app, Hc. simpl.
  now rewrite (classify_entry_not_str c bad Hbad).
Qed.

Lemma well_formed_of_classified log_data c :
  classify_loop (mkCounters 0 0) log_data = Ok c -> well_formed log_data = true.
Proof.
  intros Hc. destruct (well_formed log_data) eqn:Hwf; [reflexivity |].
  destruct (classify_loop_raises_of_malformed log_data Hwf) as [e He]. congruence.
Qed.

Lemma well_formed_of_analyzed log_data r :
  analyze_logs_simple log_data = Ok r -> well_formed log_data = true.
Proof.
  intros Hr. destruct (well_formed log_data) eqn:Hwf; [reflexivity |].
  destruct (classify_loop_raises_of_malformed log_data Hwf) as [e He].
  apply analyze_raises in He. congruence.
Qed.

Lemma analyze_raises_of_malformed log_data :
  well_formed log_data = false -> exists e, analyze_logs_simple log_data = Raise e.
Proof.
  intros Hwf. destruct (classify_loop_raises_of_malformed log_data Hwf) as [e He].
  exists e. now apply analyze_raises.
Qed.

End Scan.

(** X7. The scan stops at the first entry whose message is not a string:
    the analysis raises the [AttributeError] of that entry, naming its type,
    whatever comes after it. *)
Theorem first_bad_message_raises
    (pre post : list LogEntry) (bad : LogEntry) :
  well_formed pre = true ->
  (forall s, message bad <> PyStr s) ->
  analyze_logs_simple (pre ++ bad :: post) =
  Raise (mkExc "AttributeError"
           ("'" +:+ type_name (message bad) +:+ "' object has no attribute 'lower'")).
Proof.
  intros Hpre Hbad. apply analyze_raises.
  destruct (classify_loop_counts pre Hpre) as (c & _ & Hc & _).
  rewrite classify_loop_app, Hc. simpl.
  now rewrite (classify_entry_not_str c bad Hbad).
Qed.

Lemma first_bad_message_raises_witness :
  analyze_logs_simple
    (Samples.mixed ++ mkLogEntry (PyInt 5) PyNone "/g" :: Samples.six_errors) =
  Raise (mkExc "AttributeError" "'NoneType' object has no attribute 'lower'").
Proof.
  refine (first_bad_message_raises Samples.mixed Samples.six_errors
            (mkLogEntry (PyInt 5) PyNone "/g") eq_refl _).
  intros s. discriminate.
Defined.

(** X8. The analysis returns exactly on the inputs whose messages are all
    strings: it raises if and only if some message is not a string. *)
Theorem analysis_raises_iff_malformed (log_data : list LogEntry) :
  (exists e, analyze_logs_simple log_data = Raise e) <->
  well_formed log_data = false.
Proof.
  split.
  - intros [e He]. destruct (well_formed log_data) eqn:Hwf; [| reflexivity].
    destruct (classify_loop_counts log_data Hwf) as (c & _ & Hc & _).
    rewrite (analyze_of_counters _ _ Hc) in He. discriminate.
  - apply analyze_raises_of_malformed.
Qed.

(** X9. The result of the analysis does not depend on the order of the
    entries: two well-formed inputs that are permutations of each other are
    analysed alike. *)
Theorem analysis_order_independent (l1 l2 : list LogEntry) :
  Permutation l1 l2 ->
  well_formed l1 = true ->
  analyze_logs_simple l1 = analyze_logs_simple l2.
Proof.
  intros HP Hwf. unfold analyze_logs_simple.
  rewrite (classify_loop_perm l1 l2 HP Hwf).
  unfold len. now rewrite (Permutation_length HP).
Qed.

Lemma analysis_order_independent_witness :
  analyze_logs_simple Samples.mixed = analyze_logs_simple (rev Samples.mixed).
Proof.
  apply (analysis_order_independent Samples.mixed (rev Samples.mixed)).
  - apply Permutation_rev.
  - reflexivity.
Defined.

(** X10. Counting composes over concatenation: the counters of [l1 ++ l2]
    are the sums of the counters of [l1] and of [l2]. *)
Theorem counters_add_over_concatenation
    (l1 l2 : list LogEntry) (c1 c2 : Counters) :
  classify_loop (mkCounters 0 0) l1 = Ok c1 ->
  classify_loop (mkCounters 0 0) l2 = Ok c2 ->
  classify_loop (mkCounters 0 0) (l1 ++ l2) =
  Ok (mkCounters (error_count c1 + error_count c2)
                 (warning_count c1 + warning_count c2)).
Proof.
  intros H1 H2. rewrite classify_loop_app, H1.
  pose proof (well_formed_of_classified l2 c2 H2) as Hwf.
  destruct (classify_loop_tally l2 Hwf) as (e & w & n & _ & _ & _ & _ & _ & Hloop).
  rewrite (Hloop c1). rewrite (Hloop (mkCounters 0 0)) in H2.
  injection H2 as <-. reflexivity.
Qed.

Lemma counters_add_over_concatenation_witness :
  classify_loop (mkCounters 0 0) (Samples.mixed ++ Samples.six_errors) =
  Ok (mkCounters 8 1).
Proof.
  exact (counters_add_over_concatenation Samples.mixed Samples.six_errors
           (mkCounters 2 1) (mkCounters 6 0) eq_refl eq_refl).
Defined.

(** X11. The counters are never negative and together never exceed the
    number of entries, so neither does either of them. *)
Theorem counters_bounded_by_length (log_data : list LogEntry) (c : Counters) :
  classify_loop (mkCounters 0 0) log_data = Ok c ->
  0 <= error_count c /\ 0 <= warning_count c /\
  error_count c + warning_count c <= len log_data.
Proof.
  intros Hc.
  pose proof (well_formed_of_classified log_data c Hc) as Hwf.
  destruct (classify_loop_counts log_data Hwf) as (c' & n & Hc' & _ & He & Hw & Hn & Hsum).
  rewrite Hc in Hc'. injection Hc' as <-. lia.
Qed.

Lemma counters_bounded_by_length_witness :
  0 <= 2 /\ 0 <= 1 /\ 2 + 1 <= len Samples.mixed.
Proof.
  exact (counters_bounded_by_length Samples.mixed (mkCounters 2 1) eq_refl).
Defined.

(** X12. The key word "warning" adds nothing to the warning test: a message
    contains one of "warning", "warn", "deprecated" exactly when it contains
    one of "warn", "deprecated". *)
Theorem warning_keyword_is_redundant (msg : string) :
  any_word_in warning_words msg = any_word_in ["warn"; "deprecated"] msg.
Proof.
  unfold any_word_in, warning_words. cbn [existsb].
  destruct (str_in "warning" msg) eqn:Hw; [| reflexivity].
  apply str_in_spec in Hw. destruct Hw as (a & b & ->).
  assert (H : str_in "warn" (a +:+ "warning" +:+ b) = true).
  { apply str_in_spec. exists a, ("ing" +:+ b). reflexivity. }
  now rewrite H.
Qed.

(** * More on the handler and the metrics *)

Section Invocation.

(** The fetch looks at the world through the clock and the log store only. *)
Lemma fetch_recent_logs_same_logs (w w' : World) :
  clock_ms w = clock_ms w' ->
  (forall g s e l, filter_log_events w g s e l = filter_log_events w' g s e l) ->
  fetch_recent_logs w = fetch_recent_logs w'.
Proof.
  intros Hclock Hlogs. rewrite !fetch_recent_logs_cases. cbv zeta.
  now rewrite Hclock, Hlogs.
Qed.

Lemma count_put_app t1 t2 :
  count_put_metric_data (t1 ++ t2) =
  (count_put_metric_data t1 + count_put_metric_data t2)%nat.
Proof.
  unfold count_put_metric_data. now rewrite List.filter_app, length_app.
Qed.

Lemma count_filter_app t1 t2 :
  count_filter_log_events (t1 ++ t2) =
  (count_filter_log_events t1 + count_filter_log_events t2)%nat.
Proof.
  unfold count_filter_log_events. now rewrite List.filter_app, length_app.
Qed.

Lemma store_metrics_counts analysis w :
  count_put_metric_data (snd (store_metrics analysis w)) = 1%nat /\
  count_filter_log_events (snd (store_metrics analysis w)) = 0%nat /\
  fst (store_metrics analysis w) = Ok ().
Proof.
  unfold store_metrics, try_catch, mbind, M_bind, bind, call_put_metric_data, print.
  destruct (put_metric_data w _ _) as [[] | e]; repeat split; reflexivity.
Qed.

End Invocation.

(** X13. The handler answers 500 exactly when one of the fetched entries
    carries a message that is not a string, and 200 otherwise. *)
Theorem handler_500_iff_malformed (event context : pyval) (w : World) :
  exists resp log_data,
    fst (lambda_handler event context w) = Ok resp /\
    fst (fetch_recent_logs w) = Ok log_data /\
    (statusCode resp = 500 <-> well_formed log_data = false) /\
    (statusCode resp = 200 <-> well_formed log_data = true).
Proof.
  destruct (fetch_recent_logs_run w) as (log_data & t & Hf & _).
  rewrite (lambda_handler_run event context w log_data t Hf), Hf.
  destruct log_data as [| log rest].
  - do 2 eexists. repeat split; try reflexivity; discriminate.
  - destruct (analyze_logs_simple (log :: rest)) as [a | e] eqn:Ha.
    + pose proof (well_formed_of_analyzed _ _ Ha) as Hwf.
      do 2 eexists. split; [reflexivity |]. split; [reflexivity |].
      rewrite Hwf. cbn [statusCode create_response]. repeat split; try discriminate;
        reflexivity.
    + assert (Hwf : well_formed (log :: rest) = false).
      { destruct (well_formed (log :: rest)) eqn:Hwf; [| reflexivity].
        destruct (classify_loop_counts _ Hwf) as (c & _ & Hc & _).
        rewrite (analyze_of_counters _ _ Hc) in Ha. discriminate. }
      do 2 eexists. split; [reflexivity |]. split; [reflexivity |].
      rewrite Hwf. cbn [statusCode create_response]. repeat split; try discriminate;
        reflexivity.
Qed.

(** X14. What the metrics store answers never changes the response: two
    worlds with the same clock and the same log store get the same
    response, whether publishing succeeds or raises. *)
Theorem publish_outcome_does_not_change_response
    (event context : pyval) (w w' : World) :
  clock_ms w = clock_ms w' ->
  (forall g s e l, filter_log_events w g s e l = filter_log_events w' g s e l) ->
  fst (lambda_handler event context w) = fst (lambda_handler event context w').
Proof.
  intros Hclock Hlogs.
  pose proof (fetch_recent_logs_same_logs w w' Hclock Hlogs) as Hsame.
  destruct (fetch_recent_logs_run w) as (log_data & t & Hf & _).
  assert (Hf' : fetch_recent_logs w' = (Ok log_data, t)) by congruence.
  rewrite (lambda_handler_run event context w log_data t Hf).
  rewrite (lambda_handler_run event context w' log_data t Hf').
  destruct log_data; [reflexivity |].
  destruct (analyze_logs_simple _); reflexivity.
Qed.

Lemma publish_outcome_does_not_change_response_witness :
  fst (lambda_handler PyNone PyNone Worlds.metrics_down) =
  fst (lambda_handler PyNone PyNone MoreWorlds.metrics_up).
Proof.
  apply (publish_outcome_does_not_change_response PyNone PyNone
           Worlds.metrics_down MoreWorlds.metrics_up).
  - reflexivity.
  - intros g s e l. reflexivity.
Defined.

(** X15. An invocation calls the log store exactly once.  It calls the
    metrics store exactly once, with the two points of the analysis, when
    entries were fetched and analysed, and not at all when nothing was
    fetched or the analysis raised. *)
Theorem stores_called_at_most_once (event context : pyval) (w : World) :
  exists log_data,
    fst (fetch_recent_logs w) = Ok log_data /\
    count_filter_log_events (snd (lambda_handler event context w)) = 1%nat /\
    (log_data = [] ->
       count_put_metric_data (snd (lambda_handler event context w)) = 0%nat) /\
    (well_formed log_data = false ->
       count_put_metric_data (snd (lambda_handler event context w)) = 0%nat) /\
    (forall analysis,
       log_data <> [] -> analyze_logs_simple log_data = Ok analysis ->
       count_put_metric_data (snd (lambda_handler event context w)) = 1%nat /\
       In (EvPutMetricData "Infrastructure/AI-Monitor" (metric_data analysis))
          (snd (lambda_handler event context w))).
Proof.
  destruct (fetch_recent_logs_calls w) as (log_data & t & Hf & Hcf & Hcp).
  exists log_data. rewrite (lambda_handler_run event context w log_data t Hf), Hf.
  split; [reflexivity |].
  destruct log_data as [| log rest].
  - cbn [snd].
    change (EvPrint "Starting log analysis..." :: t ++ [EvPrint "No recent logs to analyze"])
      with ([EvPrint "Starting log analysis..."] ++ t ++ [EvPrint "No recent logs to analyze"]).
    rewrite !count_filter_app, !count_put_app, Hcf, Hcp.
    split; [reflexivity |]. split; [reflexivity |]. split; [reflexivity |].
    intros analysis H. contradiction.
  - destruct (analyze_logs_simple (log :: rest)) as [a | e] eqn:Ha; cbn [snd].
    + destruct (store_metrics_counts a w) as (Hsp & Hsf & _).
      destruct (store_metrics_run a w) as (lines & Hrun & _).
      match goal with
      | |- context [EvPrint ?s0 :: t ++ EvPrint ?s1 :: ?sm ++ ?tl] =>
          change (EvPrint s0 :: t ++ EvPrint s1 :: sm ++ tl)
            with ([EvPrint s0] ++ t ++ [EvPrint s1] ++ sm ++ tl)
      end.
      rewrite !count_filter_app, !count_put_app, Hcf, Hcp, Hsp, Hsf.
      split; [reflexivity |]. split; [discriminate |]. split.
      * intros Hwf. apply analyze_raises_of_malformed in Hwf as [e He]. congruence.
      * intros analysis _ Hok. injection Hok as <-. split; [reflexivity |].
        rewrite Hrun. cbn [snd]. apply in_or_app. right. apply in_or_app. right.
        apply in_or_app. right. apply in_or_app. left. now left.
    + match goal with
      | |- context [EvPrint ?s0 :: t ++ ?tl] =>
          change (EvPrint s0 :: t ++ tl) with ([EvPrint s0] ++ t ++ tl)
      end.
      rewrite !count_filter_app, !count_put_app, Hcf, Hcp.
      split; [reflexivity |]. split; [discriminate |]. split; [reflexivity |].
      intros analysis _ Hok. discriminate Hok.
Qed.



(** X17. A severity that is not a key of the table is sent as level 1, and
    level 4 is sent for "critical" alone. *)
Theorem severity_value_of_unknown (analysis : AnalysisResult) :
  (severity analysis <> "low" -> severity analysis <> "medium" ->
   severity analysis <> "high" -> severity analysis <> "critical" ->
   severity_value analysis = 1) /\
  (severity_value analysis = 4 <-> severity analysis = "critical") /\
  1 <= severity_value analysis <= 4.
Proof.
  unfold severity_value, severity_map.
  destruct (decide (severity analysis = "low")) as [-> | Hl];
    [repeat split; try discriminate; try congruence |].
  destruct (decide (severity analysis = "medium")) as [-> | Hm];
    [repeat split; try discriminate; try congruence |].
  destruct (decide (severity analysis = "high")) as [-> | Hh];
    [repeat split; try discriminate; try congruence |].
  destruct (decide (severity analysis = "critical")) as [-> | Hc];
    [repeat split; try discriminate; try congruence |].
  rewrite lookup_insert_ne by congruence.
  rewrite lookup_insert_ne by congruence.
  rewrite lookup_insert_ne by congruence.
  rewrite lookup_singleton_ne by congruence.
  cbn [default]. repeat split; try discriminate; try congruence; try lia.
Qed.

(** * More on the response body *)

Section Encoding.

Lemma printable_app a b : printable (a +:+ b) = printable a && printable b.
Proof.
  induction a as [| c a IH]; [reflexivity |].
  rewrite append_cons. simpl. now rewrite IH, andb_assoc.
Qed.

Lemma printable_uint d : printable (NilEmpty.string_of_uint d) = true.
Proof. induction d; simpl; try rewrite IHd; reflexivity. Qed.

Lemma printable_fmt_int n : printable (fmt_int n) = true.
Proof.
  unfold fmt_int, NilZero.string_of_int, NilZero.string_of_uint.
  destruct (Z.to_int n) as [d | d]; destruct d; try reflexivity;
    try apply (printable_uint (_ d));
    try (change (printable (String "-" (NilEmpty.string_of_uint (D0 d))) = true);
         simpl; apply printable_uint).
  all: simpl; try apply printable_uint; reflexivity.
Qed.

Lemma printable_escape_char c : printable (Json.escape_char c) = true.
Proof. destruct c as [[|] [|] [|] [|] [|] [|] [|] [|]]; reflexivity. Qed.

Lemma printable_escape s : printable (Json.escape s) = true.
Proof.
  induction s as [| c s IH]; [reflexivity |].
  simpl. now rewrite printable_app, printable_escape_char, IH.
Qed.

Lemma printable_dumps_str s : printable (Json.dumps_str s) = true.
Proof.
  unfold Json.dumps_str. now rewrite !printable_app, printable_escape.
Qed.

Lemma printable_dumps : forall j, printable (Json.dumps j) = true.
Proof.
  fix IH 1. intros [s | n | items | fields].
  - apply printable_dumps_str.
  - apply printable_fmt_int.
  - cbn [Json.dumps].
    match goal with
    | |- printable (_ +:+ ?g items +:+ _) = true =>
        assert (H : printable (g items) = true)
    end.
    { induction items as [| x rest IHr]; [reflexivity |].
      destruct rest as [| y rest']; [apply IH |].
      rewrite !printable_app, IH, IHr. reflexivity. }
    rewrite !printable_app, H. reflexivity.
  - cbn [Json.dumps].
    match goal with
    | |- printable (_ +:+ ?g fields +:+ _) = true =>
        assert (H : printable (g fields) = true)
    end.
    { induction fields as [| [k v] rest IHr]; [reflexivity |].
      destruct rest as [| y rest'].
      - rewrite !printable_app, printable_dumps_str, IH. reflexivity.
      - rewrite !printable_app, printable_dumps_str, IH, IHr. reflexivity. }
    rewrite !printable_app, H. reflexivity.
Qed.

End Encoding.

(** X18. A dictionary body is sent as printable ASCII, whatever characters
    its keys and strings hold: quotes, backslashes, control characters and
    code points above 126 all leave as escapes. *)
Theorem dict_body_is_printable_ascii (status_code : Z) (fields : list (string * json)) :
  printable (body (create_response status_code (BodyDict fields))) = true.
Proof. apply (printable_dumps (JDict fields)). Qed.

(** * More on what the analysis depends on *)

Section CaseAndRules.

Lemma lower_char_idempotent c : lower_char (lower_char c) = lower_char c.
Proof. destruct c as [[|] [|] [|] [|] [|] [|] [|] [|]]; reflexivity. Qed.

Lemma lower_idempotent s : lower (lower s) = lower s.
Proof.
  induction s as [| c s IH]; [reflexivity |].
  simpl. now rewrite lower_char_idempotent, IH.
Qed.

Lemma classify_entry_lowered c log :
  classify_entry c (lowered log) = classify_entry c log.
Proof.
  unfold classify_entry, lowered.
  destruct (message log) as [s | n |] eqn:Hm; cbn [message]; rewrite ?Hm;
    [| reflexivity | reflexivity].
  cbn [py_lower]. now rewrite lower_idempotent.
Qed.

Lemma classify_loop_lowered c log_data :
  classify_loop c (map lowered log_data) = classify_loop c log_data.
Proof.
  revert c. induction log_data as [| log rest IH]; intros c; [reflexivity |].
  cbn [map classify_loop]. rewrite classify_entry_lowered.
  destruct (classify_entry c log); [apply IH | reflexivity].
Qed.

End CaseAndRules.

(** X19. The match is blind to case: lower-casing every message before the
    analysis changes nothing of its result, exception included. *)
Theorem analysis_ignores_case (log_data : list LogEntry) :
  analyze_logs_simple (map lowered log_data) = analyze_logs_simple log_data.
Proof.
  unfold analyze_logs_simple. rewrite classify_loop_lowered.
  unfold len. now rewrite length_map.
Qed.

(** X20. The two rule sets agree: the stability recommendation is given
    only with severity "low" and no issue, and any other severity comes
    with the recommendation that matches its issue. *)
Theorem stable_recommendation_implies_low (log_data : list LogEntry) :
  well_formed log_data = true ->
  exists r,
    analyze_logs_simple log_data = Ok r /\
    (In "Continue monitoring - system appears stable" (recommendations r) ->
       severity r = "low" /\ issues_found r = []) /\
    (severity r = "high" ->
       In "Review error logs for root cause analysis" (recommendations r)) /\
    (severity r = "medium" ->
       In "Review error logs for root cause analysis" (recommendations r) \/
       In "Address warning conditions to prevent issues" (recommendations r)).
Proof.
  intros Hwf.
  destruct (classify_loop_counts log_data Hwf) as (c & _ & Hloop & _).
  rewrite (analyze_of_counters _ _ Hloop). eexists. split; [reflexivity |].
  cbn [severity issues_found recommendations].
  destruct (determine_severity_rows c) as (R1 & R2 & R3 & R4).
  destruct (build_recommendations_cases c) as (B1 & B2 & B3 & B4).
  destruct (Z.lt_ge_cases 0 (error_count c)) as [He | He];
    destruct (Z.lt_ge_cases 5 (warning_count c)) as [Hw | Hw];
    [ rewrite B4 by lia | rewrite B2 by lia | rewrite B3 by lia | rewrite B1 by lia ];
    (destruct (Z.lt_ge_cases 5 (error_count c));
     [ rewrite R1 by lia
     | destruct (Z.lt_ge_cases 2 (error_count c));
       [ rewrite R2 by lia
       | destruct (Z.lt_ge_cases 10 (warning_count c));
         [ rewrite R3 by lia | rewrite R4 by lia ] ] ]);
    cbn [fst snd]; try lia;
    (split; [intros Hin; simpl in Hin;
             repeat (destruct Hin as [Hin | Hin]; try discriminate Hin);
             try contradiction; try (split; reflexivity) |]);
    (split; [intros Hs; try discriminate Hs; simpl; auto |]);
    intros Hs; try discriminate Hs; simpl; auto.
Qed.

Lemma stable_recommendation_implies_low_witness :
  exists r, analyze_logs_simple Samples.mixed = Ok r /\
            (severity r = "high" ->
             In "Review error logs for root cause analysis" (recommendations r)).
Proof.
  destruct (stable_recommendation_implies_low Samples.mixed eq_refl)
    as (r & Hr & _ & Hhigh & _).
  exists r. split; [exact Hr | exact Hhigh].
Defined.
